(** * Swiggy restaurant dashboard (app.py): data preparation, filter and chart data

    The dashboard reads one CSV file at import time, cleans it, and registers
    two callbacks: [set_cities_options] (state selection -> city options) and
    [update_graphs] (four inputs -> three figures).

    Modelling conventions.
    - A [str] is the [string] of its UTF-8 bytes; a Python [float] is a
      primitive binary64 [float], so NaN and the IEEE comparisons are the
      real ones.
    - A DataFrame is the list of its rows in index order; a column is the list
      of its cells; [df[mask]] keeps the rows whose mask entry is [True].  The
      one place where a frame loses its columns (an empty mask that is not
      boolean, line 146) is modelled by [frame].
    - A text cell is [option string], [None] being pandas' NaN.
    - The module globals ([df], [all_cuisines]) form the [store]; callbacks are
      computations over the store that may raise.
    - The CSV file is taken with its six named columns present and with its
      State and City columns read as text (dtype [object]); what [read_csv]
      makes of the food type column is modelled, since line 27 depends on
      it; rendering of
      the figures by plotly is outside the model, which stops at the data
      handed to [px.bar], [px.pie] and [px.scatter].
    - pandas is the 1.x series the program is written for (line 151 reads
      the columns ['index'] and ['City'] that [value_counts().reset_index()]
      has there). *)

From Stdlib Require Import String Ascii List Bool Arith ZArith Lia DecimalString.
From Stdlib Require Import Sorting.Sorted Sorting.Permutation.
From Stdlib Require Import PrimFloat Floats.
Import ListNotations.

Open Scope list_scope.
Open Scope string_scope.

(* ------------------------------------------------------------------ *)
(** ** Python built-ins used by the program *)
(* ------------------------------------------------------------------ *)

Module Py.

(** Exceptions the program can meet. [OSError]-like read failures keep the
    class name and the message the interpreter would show. *)
Inductive exn : Type :=
| FileNotFoundError (path : string)
| ReadError (class message : string)
| TypeError
| AttributeError
| KeyError (key : string).

(** [sub in s] on two [str]: [sub] occurs in [s] as a contiguous block. *)
Fixpoint contains (sub s : string) : bool :=
  String.prefix sub s
  || match s with
     | EmptyString => false
     | String _ s' => contains sub s'
     end.

(** [s.split(sep)] for a non-empty separator: scan left to right, cut at each
    occurrence, never overlapping.  [skip] counts the separator characters
    still to be stepped over, [cur] is the piece being read. *)
Fixpoint split_from (sep : string) (skip : nat) (cur s : string) : list string :=
  match s with
  | EmptyString => [cur]
  | String c s' =>
      match skip with
      | S k => split_from sep k cur s'
      | O =>
          if String.prefix sep s
          then cur :: split_from sep (String.length sep - 1) EmptyString s'
          else split_from sep 0 (cur ++ String c EmptyString) s'
      end
  end.

Definition split (sep s : string) : list string := split_from sep 0 EmptyString s.

(** [str.join]. *)
Fixpoint join (sep : string) (l : list string) : string :=
  match l with
  | [] => EmptyString
  | [x] => x
  | x :: rest => x ++ sep ++ join sep rest
  end.

(** White space as [str.isspace] sees it.  A [str] is held as its UTF-8
    bytes, so a white space character is one, two or three bytes long.
    One byte: TAB..CR, FS..US and SPACE. *)
Definition isspace (c : ascii) : bool :=
  let n := nat_of_ascii c in
  (Nat.leb 9 n && Nat.leb n 13) || (Nat.leb 28 n && Nat.leb n 32).

(** Two bytes: U+0085 (C2 85) and U+00A0 (C2 A0). *)
Definition isspace2 (c d : ascii) : bool :=
  Nat.eqb (nat_of_ascii c) 194
  && (Nat.eqb (nat_of_ascii d) 133 || Nat.eqb (nat_of_ascii d) 160).

(** Three bytes: U+1680 (E1 9A 80), U+2000..U+200A (E2 80 80..8A), U+2028,
    U+2029 and U+202F (E2 80 A8, A9, AF), U+205F (E2 81 9F) and U+3000
    (E3 80 80). *)
Definition isspace3 (c d e : ascii) : bool :=
  let c := nat_of_ascii c in
  let d := nat_of_ascii d in
  let e := nat_of_ascii e in
  (Nat.eqb c 225 && Nat.eqb d 154 && Nat.eqb e 128)
  || (Nat.eqb c 226 && Nat.eqb d 128
      && ((Nat.leb 128 e && Nat.leb e 138)
          || Nat.eqb e 168 || Nat.eqb e 169 || Nat.eqb e 175))
  || (Nat.eqb c 226 && Nat.eqb d 129 && Nat.eqb e 159)
  || (Nat.eqb c 227 && Nat.eqb d 128 && Nat.eqb e 128).

(** [s.lstrip()]: the white space characters at the start are removed. *)
Fixpoint lstrip (s : string) : string :=
  match s with
  | EmptyString => EmptyString
  | String c s1 =>
      if isspace c then lstrip s1
      else
        match s1 with
        | EmptyString => s
        | String d s2 =>
            if isspace2 c d then lstrip s2
            else
              match s2 with
              | EmptyString => s
              | String e s3 => if isspace3 c d e then lstrip s3 else s
              end
        end
  end.

(** The text is made of white space characters only. *)
Fixpoint all_space (s : string) : bool :=
  match s with
  | EmptyString => true
  | String c s1 =>
      if isspace c then all_space s1
      else
        match s1 with
        | EmptyString => false
        | String d s2 =>
            if isspace2 c d then all_space s2
            else
              match s2 with
              | EmptyString => false
              | String e s3 => if isspace3 c d e then all_space s3 else false
              end
        end
  end.

(** [s.rstrip()]: the text up to the point from which only white space
    follows.  (Inside a character no such point is found: the bytes that
    continue a character start no white space.) *)
Fixpoint rstrip (s : string) : string :=
  match s with
  | EmptyString => EmptyString
  | String c s' => if all_space s then EmptyString else String c (rstrip s')
  end.

(** [s.strip()] *)
Definition strip (s : string) : string := rstrip (lstrip s).

(** [sorted] on a list of [str]: ascending by code point.  Equal strings are
    indistinguishable, so the sorting algorithm does not show. *)
Fixpoint insert_str (x : string) (l : list string) : list string :=
  match l with
  | [] => [x]
  | y :: l' => if String.leb x y then x :: l else y :: insert_str x l'
  end.

Fixpoint sorted_str (l : list string) : list string :=
  match l with
  | [] => []
  | x :: l' => insert_str x (sorted_str l')
  end.

(** Truthiness of the value of a multi-select input: [None] and [[]] are
    falsy, a non-empty list is truthy. *)
Definition truthy {A : Type} (v : option (list A)) : bool :=
  match v with
  | Some (_ :: _) => true
  | _ => false
  end.

(** The elements iterated over when a truthy value is used as a list. *)
Definition items {A : Type} (v : option (list A)) : list A :=
  match v with
  | Some l => l
  | None => []
  end.

End Py.

(* ------------------------------------------------------------------ *)
(** ** The pandas operations used by the program *)
(* ------------------------------------------------------------------ *)

Module Pd.
Import Py.

(** A cell of a text column: a [str], or the float NaN that marks a missing
    value. *)
Definition cell : Type := option string.

(** A cell of a numeric column as [read_csv] leaves it when the column holds
    anything that is not a number (dtype [object]): the field text, or NaN. *)
Inductive numcell : Type :=
| Num (x : float)
| Txt (s : string).

Definition is_nan (x : float) : bool := negb (PrimFloat.eqb x x).

(** Field texts that [read_csv] reads as NaN with its default settings
    ([na_filter=True], [keep_default_na=True]); the empty field is one. *)
Definition na_values : list string :=
  [""; "#N/A"; "#N/A N/A"; "#NA"; "-1.#IND"; "-1.#QNAN"; "-NaN"; "-nan";
   "1.#IND"; "1.#QNAN"; "<NA>"; "N/A"; "NA"; "NULL"; "NaN"; "n/a";
   "nan"; "null"].

Definition is_na_field (field : string) : bool :=
  existsb (String.eqb field) na_values.

Definition read_text (field : string) : cell :=
  if is_na_field field then None else Some field.

(** Numeric fields are kept as text here and parsed by [to_numeric]; the
    column-wise type inference of [read_csv] uses the same parser, so the
    floats after [to_numeric] are the same either way. *)
Definition read_number (field : string) : numcell :=
  if is_na_field field then Num nan else Txt field.

(** [pd.to_numeric(col, errors='coerce')] on one cell: numbers pass, text is
    parsed, and what does not parse becomes NaN.  [parse] is pandas' text to
    float64 conversion. *)
Definition to_numeric (parse : string -> option float) (c : numcell) : float :=
  match c with
  | Num x => x
  | Txt s => match parse s with
             | Some x => x
             | None => nan
             end
  end.

Definition isna (c : cell) : bool :=
  match c with
  | None => true
  | Some _ => false
  end.

Definition cell_eqb (a b : cell) : bool :=
  match a, b with
  | Some x, Some y => String.eqb x y
  | None, None => true
  | _, _ => false
  end.

(** Boolean indexing [frame[mask]]: the rows at the positions where the mask
    is [True], in order. *)
Definition select {A : Type} (mask : list bool) (rows : list A) : list A :=
  map snd (filter fst (combine mask rows)).

(** [col.isin(values)] with [values] a list of [str]: NaN is in no such list. *)
Definition isin (col : list cell) (values : list string) : list bool :=
  map (fun c => match c with
                | Some s => existsb (String.eqb s) values
                | None => false
                end) col.

(** [col.unique()]: the distinct values in order of first appearance (NaN
    included, once). *)
Fixpoint unique (col : list cell) : list cell :=
  match col with
  | [] => []
  | c :: rest => c :: filter (fun d => negb (cell_eqb c d)) (unique rest)
  end.

(** The [str] values of a column, NaN dropped. *)
Fixpoint dropna_cells (col : list cell) : list string :=
  match col with
  | [] => []
  | Some s :: rest => s :: dropna_cells rest
  | None :: rest => dropna_cells rest
  end.

(** [sorted(values)] on cells.  Strings sort by code point; a [str] cannot be
    compared with the float NaN, which raises [TypeError]; NaN alone compares
    false with itself and stays in place. *)
Definition sorted (values : list cell) : exn + list cell :=
  if forallb isna values then inr values
  else if existsb isna values then inl TypeError
  else inr (map Some (sorted_str (dropna_cells values))).

(** [col.str.split(sep)]: NaN stays NaN. *)
Definition str_split (sep : string) (col : list cell) : list (option (list string)) :=
  map (option_map (split sep)) col.

(** [col.explode()]: one cell per list element; NaN and the empty list give
    one NaN cell. *)
Definition explode (col : list (option (list string))) : list cell :=
  flat_map (fun c => match c with
                     | Some (x :: l) => map Some (x :: l)
                     | _ => [None]
                     end) col.

(** [col.str.strip()] *)
Definition str_strip (col : list cell) : list cell :=
  map (option_map strip) col.

(** Number of cells equal to the string [k]. *)
Definition count (k : string) (col : list cell) : nat :=
  length (filter (cell_eqb (Some k)) col).

(** Descending sort of (value, count) pairs by count.  Entries with equal
    counts keep their relative order (first-encountered first); pandas leaves
    that order to the sorting routine, and nothing proved below depends on
    it. *)
Fixpoint insert_desc (x : string * nat) (l : list (string * nat)) : list (string * nat) :=
  match l with
  | [] => [x]
  | y :: l' => if Nat.ltb (snd x) (snd y) then y :: insert_desc x l' else x :: l
  end.

Fixpoint sort_desc (l : list (string * nat)) : list (string * nat) :=
  match l with
  | [] => []
  | x :: l' => insert_desc x (sort_desc l')
  end.

(** [col.value_counts()]: NaN dropped, one entry per distinct value with the
    number of its occurrences, highest count first. *)
Definition value_counts (col : list cell) : list (string * nat) :=
  sort_desc (map (fun k => (k, count k col)) (dropna_cells (unique col))).

(** [counts.nlargest(n)]: the [n] entries with the highest counts, highest
    first ([keep='first']). *)
Definition nlargest (n : nat) (counts : list (string * nat)) : list (string * nat) :=
  firstn n (sort_desc counts).

(** The texts [read_csv] reads as booleans. *)
Definition bool_texts : list string :=
  ["True"; "TRUE"; "true"; "False"; "FALSE"; "false"].

(** What [read_csv] makes of a whole column.  It tries integers, floats and
    booleans in turn on the fields that are not missing and keeps the text
    when none fits every field: a column without any line is text (dtype
    [object]); a column whose fields are all numbers or missing is int64 or
    float64; one whose fields are all booleans is bool, or [object] holding
    booleans and NaN when some field is missing. *)
Inductive column_kind : Type :=
| TextColumn
| NumberColumn
| BoolColumn
| BoolObjectColumn.

Definition column_kind_of (parse : string -> option float) (col : list cell)
  : column_kind :=
  match col with
  | [] => TextColumn
  | _ =>
      if forallb (fun c => match c with
                           | None => true
                           | Some field => match parse field with
                                           | Some _ => true
                                           | None => false
                                           end
                           end) col
      then NumberColumn
      else if forallb (fun c => match c with
                                | None => true
                                | Some field => existsb (String.eqb field) bool_texts
                                end) col
           then if existsb isna col then BoolObjectColumn else BoolColumn
           else TextColumn
  end.

(** The numbers of a float64 column, NaN skipped. *)
Definition dropna_floats (col : list float) : list float :=
  filter (fun v => negb (is_nan v)) col.

(** The smallest (largest) of [m] and the numbers of [rest]; of two equal
    numbers (as [0.0] and [-0.0]) the earlier one is kept, which no
    comparison can tell from the later one. *)
Fixpoint least (m : float) (rest : list float) : float :=
  match rest with
  | [] => m
  | v :: rest' => least (if PrimFloat.ltb v m then v else m) rest'
  end.

Fixpoint greatest (m : float) (rest : list float) : float :=
  match rest with
  | [] => m
  | v :: rest' => greatest (if PrimFloat.ltb m v then v else m) rest'
  end.

(** [col.min()] and [col.max()] on a float64 column ([skipna=True]): NaN is
    skipped, and the result is NaN when no number is left. *)
Definition series_min (col : list float) : float :=
  match dropna_floats col with
  | [] => nan
  | v :: rest => least v rest
  end.

Definition series_max (col : list float) : float :=
  match dropna_floats col with
  | [] => nan
  | v :: rest => greatest v rest
  end.

End Pd.

(* ------------------------------------------------------------------ *)
(** ** app.py *)
(* ------------------------------------------------------------------ *)

Module App.
Import Py Pd.

(** *** The input file *)

(** One data line of the CSV file, its fields taken by column header. *)
Record CsvRecord : Type := mkCsv {
  csv_Restaurant : string;
  csv_State : string;
  csv_City : string;
  csv_Price : string;
  csv_Avg_ratings : string;
  csv_Food_type : string
}.

(** What a path leads to when the program starts. *)
Inductive file : Type :=
| Missing
| Unreadable (class message : string)
| Csv (records : list CsvRecord).

Definition filesystem : Type := string -> file.

(** A row as [pd.read_csv] returns it. *)
Record RawRow : Type := mkRaw {
  raw_Restaurant : cell;
  raw_State : cell;
  raw_City : cell;
  raw_Price : numcell;
  raw_Avg_ratings : numcell;
  raw_Food_type : cell
}.

(** A row of [df] once lines 22-23 have made both numeric columns float64. *)
Record Row : Type := mkRow {
  Restaurant : cell;
  State : cell;
  City : cell;
  Price : float;
  Avg_ratings : float;
  Food_type : cell
}.

Definition DataFrame : Type := list Row.

Definition read_record (r : CsvRecord) : RawRow :=
  {| raw_Restaurant := read_text (csv_Restaurant r);
     raw_State := read_text (csv_State r);
     raw_City := read_text (csv_City r);
     raw_Price := read_number (csv_Price r);
     raw_Avg_ratings := read_number (csv_Avg_ratings r);
     raw_Food_type := read_text (csv_Food_type r) |}.

Definition read_csv (fs : filesystem) (path : string) : exn + list RawRow :=
  match fs path with
  | Missing => inl (FileNotFoundError path)
  | Unreadable class message => inl (ReadError class message)
  | Csv records => inr (map read_record records)
  end.

(** *** Module state and start-up (lines 15-27) *)

Record store : Type := mkStore {
  df : DataFrame;
  all_cuisines : list cell
}.

(** How running the module body ends: the app object exists and callbacks
    can be served; or [exit()] was called after printing; or an exception
    left the module body uncaught. *)
Inductive outcome : Type :=
| Serving (s : store)
| Exited (stdout : list string)
| Uncaught (e : exn).

Definition csv_path : string := "swiggy state .csv".

Definition not_found_message : string :=
  "Error: 'swiggy state .csv' not found. Make sure the file is in the same folder as app.py".

Section Startup.

(** pandas' conversion of a field text to float64, [None] when the text is
    not a number. *)
Variable parse : string -> option float.

(** Lines 22-23: [df['Price'] = pd.to_numeric(df['Price'], errors='coerce')],
    and the same for ['Avg ratings']. *)
Definition coerce (r : RawRow) : Row :=
  {| Restaurant := raw_Restaurant r;
     State := raw_State r;
     City := raw_City r;
     Price := to_numeric parse (raw_Price r);
     Avg_ratings := to_numeric parse (raw_Avg_ratings r);
     Food_type := raw_Food_type r |}.

(** Line 24: a row stays when none of the five listed columns is NaN. *)
Definition complete (r : Row) : bool :=
  negb (is_nan (Price r))
  && negb (is_nan (Avg_ratings r))
  && negb (isna (State r))
  && negb (isna (City r))
  && negb (isna (Food_type r)).

Definition dropna (rows : DataFrame) : DataFrame := filter complete rows.

(** Line 27. *)
Definition cuisine_tokens (rows : DataFrame) : list cell :=
  str_strip (explode (str_split ", " (map Food_type rows))).

(** Whether [df['Food type'].str] can be taken at line 27: the accessor
    wants strings.  A text column has them (or nothing, once cleaned); a
    number or bool column raises [AttributeError]; an [object] column of
    booleans raises unless the cleaning left no row. *)
Definition str_accessor (kind : column_kind) (cleaned : DataFrame) : bool :=
  match kind with
  | TextColumn => true
  | BoolObjectColumn => match cleaned with
                        | [] => true
                        | _ :: _ => false
                        end
  | NumberColumn | BoolColumn => false
  end.

Definition module_body (fs : filesystem) : outcome :=
  match read_csv fs csv_path with
  | inl (FileNotFoundError _) => Exited [not_found_message]
  | inl e => Uncaught e
  | inr raw =>
      let cleaned := dropna (map coerce raw) in
      if str_accessor (column_kind_of parse (map raw_Food_type raw)) cleaned
      then
        match sorted (unique (cuisine_tokens cleaned)) with
        | inl e => Uncaught e
        | inr cuisines => Serving {| df := cleaned; all_cuisines := cuisines |}
        end
      else Uncaught AttributeError
  end.

End Startup.

(** What the program itself wrote to standard output. *)
Definition printed (o : outcome) : list string :=
  match o with
  | Exited stdout => stdout
  | _ => []
  end.

(** The last line of the traceback the interpreter shows for an exception
    that nobody caught. *)
Definition traceback_line (e : exn) : string :=
  match e with
  | FileNotFoundError path =>
      "FileNotFoundError: [Errno 2] No such file or directory: '" ++ path ++ "'"
  | ReadError class message => class ++ ": " ++ message
  | TypeError => "TypeError"
  | AttributeError => "AttributeError: Can only use .str accessor with string values!"
  | KeyError key => "KeyError: '" ++ key ++ "'"
  end.

(** What start-up tells the user: the program's own output and, for an
    uncaught exception, the message line of the interpreter's report. *)
Definition diagnostics (o : outcome) : list string :=
  match o with
  | Serving _ => []
  | Exited stdout => stdout
  | Uncaught e => [traceback_line e]
  end.

Definition started (o : outcome) : bool :=
  match o with
  | Serving _ => true
  | _ => false
  end.

(** *** Callbacks: computations over the module state *)

(** A callback reads the globals and either returns or raises; the store is
    threaded so that what a call leaves behind is explicit. *)
Definition M (A : Type) : Type := store -> (exn + A) * store.

Definition ret {A : Type} (a : A) : M A := fun s => (inr a, s).

Definition raise {A : Type} (e : exn) : M A := fun s => (inl e, s).

Definition bind {A B : Type} (m : M A) (k : A -> M B) : M B :=
  fun s => match m s with
           | (inr a, s') => k a s'
           | (inl e, s') => (inl e, s')
           end.

(** Reading the global [df]. *)
Definition global_df : M DataFrame := fun s => (inr (df s), s).

Definition lift {A : Type} (r : exn + A) : M A :=
  match r with
  | inr a => ret a
  | inl e => raise e
  end.

Notation "x <- m ;; k" := (bind m (fun x => k))
  (at level 61, m at next level, right associativity).

Definition result {A : Type} (m : M A) (s : store) : exn + A := fst (m s).
Definition after {A : Type} (m : M A) (s : store) : store := snd (m s).

(** An entry of a dropdown's [options]: [{'label': i, 'value': i}]. *)
Record dropdown_option : Type := mkOption {
  label : cell;
  value : cell
}.

(** Callback 1 (lines 114-118). *)
Definition set_cities_options (selected_states : option (list string))
  : M (list dropdown_option) :=
  if negb (truthy selected_states) then ret []
  else
    d <- global_df ;;
    let filtered_df := select (isin (map State d) (items selected_states)) d in
    cities <- lift (sorted (unique (map City filtered_df))) ;;
    ret (map (fun i => {| label := i; value := i |}) cities).

(** [any(cuisine in x for cuisine in selected_cuisines)] for one cell [x]:
    the generator is consumed up to the first hit, and [cuisine in x] raises
    [TypeError] when [x] is the float NaN. *)
Fixpoint any_cuisine_in (selected_cuisines : list string) (x : cell) : exn + bool :=
  match selected_cuisines with
  | [] => inr false
  | cuisine :: rest =>
      match x with
      | None => inl TypeError
      | Some s => if contains cuisine s then inr true else any_cuisine_in rest x
      end
  end.

(** [col.apply(f)]: [f] on each cell in order; the first exception ends it. *)
Fixpoint apply {A B : Type} (f : A -> exn + B) (col : list A) : exn + list B :=
  match col with
  | [] => inr []
  | a :: rest =>
      match f a with
      | inl e => inl e
      | inr b => match apply f rest with
                 | inl e => inl e
                 | inr bs => inr (b :: bs)
                 end
      end
  end.

(** Lines 132-146: the rows of [filtered_df] when the figures are built. *)
Definition filtered_view
  (selected_states selected_cities selected_cuisines : option (list string))
  (price_range : float * float) : M DataFrame :=
  d <- global_df ;;
  if negb (truthy selected_states) && negb (truthy selected_cities)
     && negb (truthy selected_cuisines)
  then ret d
  else
    let by_price :=
      select (map (fun p => PrimFloat.leb (fst price_range) p
                            && PrimFloat.leb p (snd price_range))
                  (map Price d)) d in
    let by_state :=
      if truthy selected_states
      then select (isin (map State by_price) (items selected_states)) by_price
      else by_price in
    let by_city :=
      if truthy selected_cities
      then select (isin (map City by_state) (items selected_cities)) by_state
      else by_state in
    if truthy selected_cuisines
    then
      mask <- lift (apply (any_cuisine_in (items selected_cuisines))
                          (map Food_type by_city)) ;;
      ret (select mask by_city)
    else ret by_city.

(** A frame as the callback holds it: its rows, and whether it still has its
    columns. *)
Record frame : Type := mkFrame {
  rows : DataFrame;
  has_columns : bool
}.

(** [frame[mask]] at line 146.  The mask is what [apply] returned: booleans,
    one per row, when there are rows; on a column without rows [apply]
    returns an empty Series of dtype [object], which is no boolean mask, so
    the indexing takes it as an empty list of column names and the result is
    a frame without columns (and without rows). *)
Definition index_by_mask (mask : list bool) (rows : DataFrame) : frame :=
  match mask with
  | [] => {| rows := []; has_columns := false |}
  | _ :: _ => {| rows := select mask rows; has_columns := true |}
  end.

(** Lines 132-146 again, this time with the columns of [filtered_df] kept
    track of; its rows are those of [filtered_view]. *)
Definition filtered_frame
  (selected_states selected_cities selected_cuisines : option (list string))
  (price_range : float * float) : M frame :=
  d <- global_df ;;
  if negb (truthy selected_states) && negb (truthy selected_cities)
     && negb (truthy selected_cuisines)
  then ret {| rows := d; has_columns := true |}
  else
    let by_price :=
      select (map (fun p => PrimFloat.leb (fst price_range) p
                            && PrimFloat.leb p (snd price_range))
                  (map Price d)) d in
    let by_state :=
      if truthy selected_states
      then select (isin (map State by_price) (items selected_states)) by_price
      else by_price in
    let by_city :=
      if truthy selected_cities
      then select (isin (map City by_state) (items selected_cities)) by_state
      else by_state in
    if truthy selected_cuisines
    then
      mask <- lift (apply (any_cuisine_in (items selected_cuisines))
                          (map Food_type by_city)) ;;
      ret (index_by_mask mask by_city)
    else ret {| rows := by_city; has_columns := true |}.

(** A point of the scatter plot: [x='Price'], [y='Avg ratings'],
    [hover_name='Restaurant'], [color='Avg ratings']. *)
Record point : Type := mkPoint {
  x : float;
  y : float;
  hover_name : cell;
  color : float
}.

(** Line 150: [filtered_df['City'].value_counts().nlargest(10).reset_index()],
    one (city, number of restaurants) pair per bar. *)
Definition city_counts (filtered_df : DataFrame) : list (string * nat) :=
  nlargest 10 (value_counts (map City filtered_df)).

(** Line 154, one (cuisine, count) pair per pie slice. *)
Definition cuisine_counts (filtered_df : DataFrame) : list (string * nat) :=
  nlargest 10
    (value_counts
       (str_strip (explode (str_split ", " (map Food_type filtered_df))))).

(** Lines 158-162: one point per row. *)
Definition scatter_points (filtered_df : DataFrame) : list point :=
  map (fun r => {| x := Price r; y := Avg_ratings r;
                   hover_name := Restaurant r; color := Avg_ratings r |})
      filtered_df.

(** The data of the three figures returned by [update_graphs]. *)
Record figures : Type := mkFigures {
  bar_fig : list (string * nat);
  pie_fig : list (string * nat);
  scatter_fig : list point
}.

Definition build_figures (filtered_df : DataFrame) : figures :=
  {| bar_fig := city_counts filtered_df;
     pie_fig := cuisine_counts filtered_df;
     scatter_fig := scatter_points filtered_df |}.

(** Callback 2 (lines 130-164).  The first thing the figures need is
    [filtered_df['City']] (line 150), which raises [KeyError] on a frame
    without columns. *)
Definition update_graphs
  (selected_states selected_cities selected_cuisines : option (list string))
  (price_range : float * float) : M figures :=
  filtered_df <- filtered_frame selected_states selected_cities
                                selected_cuisines price_range ;;
  if has_columns filtered_df
  then ret (build_figures (rows filtered_df))
  else raise (KeyError "City").

(** *** Interactions *)

(** One firing of a callback with the values of its inputs. *)
Inductive event : Type :=
| StateChanged (selected_states : option (list string))
| FiltersChanged (selected_states selected_cities selected_cuisines : option (list string))
                 (price_range : float * float).

(** The store left by serving one event, whatever the callback answered. *)
Definition serve (e : event) (s : store) : store :=
  match e with
  | StateChanged ss => after (set_cities_options ss) s
  | FiltersChanged ss sc scu pr => after (update_graphs ss sc scu pr) s
  end.

Definition serve_all (es : list event) (s : store) : store :=
  fold_left (fun st e => serve e st) es s.

End App.

(* ------------------------------------------------------------------ *)
(** ** The layout (lines 40-102): the data given to the input components *)
(* ------------------------------------------------------------------ *)

Module Layout.
Import Py Pd App.

(** How evaluating the layout can fail: an exception of the start-up kind,
    or one of the two that [int] raises on a float that is no number. *)
Inductive error : Type :=
| Raised (e : exn)
| ValueError
| OverflowError.

(** [int(v)] on a float: the integer part, towards zero; NaN raises
    [ValueError] and an infinity raises [OverflowError].  A finite binary64
    number is (-1)^sign * m * 2^e. *)
Definition py_int (v : float) : error + Z :=
  match Prim2SF v with
  | S754_nan => inl ValueError
  | S754_infinity _ => inl OverflowError
  | S754_zero _ => inr 0%Z
  | S754_finite sign m e =>
      let magnitude :=
        if (0 <=? e)%Z then (Zpos m * 2 ^ e)%Z else (Zpos m / 2 ^ (- e))%Z in
      inr (if sign then (- magnitude)%Z else magnitude)
  end.

(** [range(0, stop, step)] for a positive step. *)
Definition range0 (stop step : Z) : list Z :=
  map (fun k => (step * Z.of_nat k)%Z)
      (seq 0 (Z.to_nat ((stop + step - 1) / step))).

(** The label of a mark: the rupee sign followed by the number in decimal. *)
Definition mark_label (i : Z) : string :=
  "₹" ++ NilZero.string_of_int (Z.to_int i).

(** The [dcc.RangeSlider] of lines 84-91. *)
Record range_slider : Type := mkSlider {
  slider_min : float;
  slider_max : float;
  slider_step : float;
  slider_value : float * float;
  slider_marks : list (Z * string)
}.

(** What the layout gives the four inputs.  The city dropdown is created
    without options (line 67); callback 1 fills them in. *)
Record inputs : Type := mkInputs {
  state_filter_options : list dropdown_option;
  city_filter_options : list dropdown_option;
  cuisine_filter_options : list dropdown_option;
  price_slider : range_slider
}.

(** The layout expression evaluated on the module state, components in
    source order: the first exception ends the evaluation. *)
Definition app_layout (s : store) : error + inputs :=
  match sorted (unique (map State (df s))) with
  | inl e => inl (Raised e)
  | inr states =>
      match py_int (series_max (map Price (df s))) with
      | inl e => inl e
      | inr top =>
          inr {| state_filter_options :=
                   map (fun i => {| label := i; value := i |}) states;
                 city_filter_options := [];
                 cuisine_filter_options :=
                   map (fun i => {| label := i; value := i |}) (all_cuisines s);
                 price_slider :=
                   {| slider_min := series_min (map Price (df s));
                      slider_max := series_max (map Price (df s));
                      slider_step := 100;
                      slider_value := (series_min (map Price (df s)),
                                       series_max (map Price (df s)));
                      slider_marks :=
                        map (fun i => (i, mark_label i))
                            (range0 (top + 1) 500) |} |}
      end
  end.

End Layout.

(* ------------------------------------------------------------------ *)
(** ** Relations used to state the properties *)
(* ------------------------------------------------------------------ *)

(** [Subseq l1 l2]: [l1] is [l2] with some elements left out, order kept. *)
Inductive Subseq {A : Type} : list A -> list A -> Prop :=
| Subseq_nil : Subseq [] []
| Subseq_skip : forall a l1 l2, Subseq l1 l2 -> Subseq l1 (a :: l2)
| Subseq_keep : forall a l1 l2, Subseq l1 l2 -> Subseq (a :: l1) (a :: l2).

(** [Substring sub s]: [sub] occurs in [s] as a block of consecutive
    characters. *)
Definition Substring (sub s : string) : Prop :=
  exists before behind : string, s = before ++ sub ++ behind.

(** Counts never increase along the list. *)
Definition descending_by_count (l : list (string * nat)) : Prop :=
  StronglySorted (fun a b => snd b <= snd a) l.

(** Strings never decrease along the list. *)
Definition ascending (l : list string) : Prop :=
  Sorted (fun a b => String.leb a b = true) l.

(** A price lies in the closed range. *)
Definition in_price_range (price_range : float * float) (p : float) : Prop :=
  PrimFloat.leb (fst price_range) p = true /\ PrimFloat.leb p (snd price_range) = true.

(** Sum of the counts of a list of (value, count) pairs. *)
Definition total (l : list (string * nat)) : nat :=
  list_sum (map snd l).

(** Two selections have the same elements. *)
Definition same_elements (a b : list string) : Prop :=
  forall v, In v a <-> In v b.

(** Selection [b] constrains no more than selection [a]: it is empty (no
    constraint), or [a] is a constraint and everything [a] allows is allowed
    by [b]. *)
Definition looser (a b : option (list string)) : Prop :=
  Py.items b = [] \/ (Py.items a <> [] /\ incl (Py.items a) (Py.items b)).

(** A float that is plus or minus infinity. *)
Definition infinite (v : float) : Prop :=
  exists sign, Prim2SF v = S754_infinity sign.

(** Number of rows of a table whose cell in [column] is the string [v]. *)
Definition rows_with (column : App.Row -> Pd.cell) (v : string)
           (rows : App.DataFrame) : nat :=
  length (filter (fun r => Pd.cell_eqb (Some v) (column r)) rows).

(** [token] is one of the cuisines a food type string lists: a piece between
    [", "] separators, white space trimmed. *)
Definition lists (food_type token : string) : Prop :=
  exists piece, In piece (Py.split ", " food_type) /\ token = Py.strip piece.

(** The row invariant of the base table. *)
Definition valid_row (r : App.Row) : Prop :=
  Pd.is_nan (App.Price r) = false
  /\ Pd.is_nan (App.Avg_ratings r) = false
  /\ (exists s, App.State r = Some s /\ s <> "")
  /\ (exists s, App.City r = Some s /\ s <> "")
  /\ (exists s, App.Food_type r = Some s /\ s <> "").

(* ------------------------------------------------------------------ *)
(** ** A concrete file and parser, for running the model *)
(* ------------------------------------------------------------------ *)

Module Sample.
Import Py Pd App.

Definition digit (c : ascii) : option float :=
  nth_error [0; 1; 2; 3; 4; 5; 6; 7; 8; 9]%float (nat_of_ascii c - 48).

(** Reads decimal digits into [acc]; after the point, [scale] collects the
    power of ten to divide by. *)
Fixpoint digits (after_point : bool) (acc scale : float) (s : string) : option float :=
  match s with
  | EmptyString => Some (acc / scale)%float
  | String c s' =>
      if Ascii.eqb c "."
      then if after_point then None else digits true acc scale s'
      else if Nat.ltb (nat_of_ascii c) 48 then None
      else match digit c with
           | None => None
           | Some d =>
               digits after_point (acc * 10 + d)%float
                      (if after_point then scale * 10 else scale)%float s'
           end
  end.

Fixpoint has_digit (s : string) : bool :=
  match s with
  | EmptyString => false
  | String c s' =>
      match digit c with
      | Some _ => Nat.leb 48 (nat_of_ascii c) || has_digit s'
      | None => has_digit s'
      end
  end.

(** Unsigned decimal numbers such as [300] and [4.2]. *)
Definition parse_decimal (s : string) : option float :=
  if has_digit s then digits false 0%float 1%float s else None.

(** The three listings of the specification's end-to-end example, followed by
    lines that the cleaning step has to drop. *)
Definition records : list CsvRecord :=
  [ mkCsv "A" "Maharashtra" "Pune" "300" "4.2" "Pizza, Burger";
    mkCsv "B" "Maharashtra" "Mumbai" "800" "3.9" "Biryani";
    mkCsv "C" "Karnataka" "Bengaluru" "500" "4.5" "Pizza";
    mkCsv "D" "Karnataka" "Mysuru" "cheap" "4.0" "Thai";
    mkCsv "E" "Goa" "" "250" "3.5" "Seafood";
    mkCsv "F" "Goa" "Panaji" "250" "--" "Seafood";
    mkCsv "G" "NA" "Panaji" "250" "4.1" "" ].

Definition disk : filesystem :=
  fun path => if String.eqb path csv_path then Csv records else Missing.

Definition empty_disk : filesystem := fun _ => Missing.

(** A file with the header line only, and one whose every line is unusable. *)
Definition header_only_disk : filesystem := fun _ => Csv [].

Definition unusable_disk : filesystem :=
  fun _ => Csv [ mkCsv "D" "Karnataka" "Mysuru" "cheap" "4.0" "Thai";
                 mkCsv "E" "Goa" "" "250" "3.5" "Seafood" ].

(** A file none of whose lines has a food type. *)
Definition foodless_disk : filesystem :=
  fun _ => Csv [ mkCsv "A" "Maharashtra" "Pune" "300" "4.2" "";
                 mkCsv "B" "Maharashtra" "Mumbai" "800" "3.9" "NA" ].

Definition garbled_disk : filesystem :=
  fun path =>
    if String.eqb path csv_path
    then Unreadable "UnicodeDecodeError"
           "'utf-8' codec can't decode byte 0xff in position 0: invalid start byte"
    else Missing.

#[warnings="-inexact-float"]
Definition base : DataFrame :=
  [ mkRow (Some "A") (Some "Maharashtra") (Some "Pune") 300 4.2 (Some "Pizza, Burger");
    mkRow (Some "B") (Some "Maharashtra") (Some "Mumbai") 800 3.9 (Some "Biryani");
    mkRow (Some "C") (Some "Karnataka") (Some "Bengaluru") 500 4.5 (Some "Pizza") ]%float.

Definition shop : store :=
  {| df := base;
     all_cuisines := [Some "Biryani"; Some "Burger"; Some "Pizza"] |}.

(** The inputs the layout builds for [shop]. *)
Definition window : Layout.inputs :=
  {| Layout.state_filter_options :=
       [ {| label := Some "Karnataka"; value := Some "Karnataka" |};
         {| label := Some "Maharashtra"; value := Some "Maharashtra" |} ];
     Layout.city_filter_options := [];
     Layout.cuisine_filter_options :=
       [ {| label := Some "Biryani"; value := Some "Biryani" |};
         {| label := Some "Burger"; value := Some "Burger" |};
         {| label := Some "Pizza"; value := Some "Pizza" |} ];
     Layout.price_slider :=
       {| Layout.slider_min := 300; Layout.slider_max := 800;
          Layout.slider_step := 100; Layout.slider_value := (300, 800);
          Layout.slider_marks := [(0%Z, "₹0"); (500%Z, "₹500")] |} |}%float.

End Sample.

(* ------------------------------------------------------------------ *)
(** ** Facts about the Python built-ins *)
(* ------------------------------------------------------------------ *)

Section PyFacts.
Import Py.

Lemma prefix_app (sub s : string) :
  String.prefix sub s = true <-> exists behind, s = (sub ++ behind)%string.
Proof.
  revert s; induction sub as [|c sub IH]; intros s.
  - split; [intros _; now exists s | now destruct s].
  - destruct s as [|d s]; simpl.
    + split; [discriminate | intros [b Hb]; discriminate].
    + destruct (Ascii.ascii_dec c d) as [Heq|Hne].
      * rewrite IH. split; intros [b Hb]; exists b.
        -- now rewrite Hb, Heq.
        -- now inversion Hb.
      * split; [discriminate | intros [b Hb]; inversion Hb; congruence].
Qed.

Lemma contains_empty (sub : string) :
  contains sub EmptyString = String.prefix sub EmptyString.
Proof. unfold contains. now rewrite orb_false_r. Qed.

Lemma contains_String (sub : string) (c : ascii) (s : string) :
  contains sub (String c s) = String.prefix sub (String c s) || contains sub s.
Proof. reflexivity. Qed.

Lemma contains_Substring (sub s : string) :
  contains sub s = true <-> Substring sub s.
Proof.
  unfold Substring.
  induction s as [|c s IH].
  - rewrite contains_empty, prefix_app. split.
    + intros [b Hb]. now exists EmptyString, b.
    + intros [a [b Hab]]. destruct a; [now exists b | discriminate].
  - rewrite contains_String, orb_true_iff, IH, prefix_app. split.
    + intros [[b Hb] | [a [b Hab]]].
      * now exists EmptyString, b.
      * exists (String c a), b. simpl. now rewrite Hab.
    + intros [a [b Hab]]. destruct a as [|d a].
      * left. now exists b.
      * right. simpl in Hab. inversion Hab. now exists a, b.
Qed.

Lemma split_from_nonempty (sep : string) (skip : nat) (cur s : string) :
  split_from sep skip cur s <> [].
Proof.
  revert skip cur. induction s as [|c s IH]; intros skip cur; cbn [split_from].
  - discriminate.
  - destruct skip; [|apply IH].
    destruct (String.prefix sep (String c s)); [discriminate | apply IH].
Qed.

Lemma string_app_assoc (a b c : string) :
  ((a ++ b) ++ c)%string = (a ++ b ++ c)%string.
Proof. induction a as [|x a IH]; simpl; [reflexivity | now rewrite IH]. Qed.

Lemma string_app_empty (a : string) : (a ++ "")%string = a.
Proof. induction a as [|x a IH]; simpl; [reflexivity | now rewrite IH]. Qed.

Lemma join_cons (sep x : string) (l : list string) :
  l <> [] -> join sep (x :: l) = (x ++ sep ++ join sep l)%string.
Proof. destruct l; [congruence | reflexivity]. Qed.

(** Joining the pieces with the separator gives the text back; [skipped] is
    the part of a separator the scan still has to step over. *)
Lemma split_from_join (sep : string) :
  sep <> "" ->
  forall (s : string) (k : nat) (cur skipped rest : string),
    s = (skipped ++ rest)%string -> String.length skipped = k ->
    join sep (split_from sep k cur s) = (cur ++ rest)%string.
Proof.
  intros Hsep. induction s as [|c s IH]; intros k cur skipped rest Hs Hk.
  - destruct skipped; [|discriminate]. simpl in Hs, Hk. subst.
    simpl. now rewrite string_app_empty.
  - cbn [split_from]. destruct k as [|k].
    + destruct skipped; [|discriminate]. simpl in Hs. subst rest.
      destruct (String.prefix sep (String c s)) eqn:Hpre.
      * apply prefix_app in Hpre. destruct Hpre as [behind Hbehind].
        destruct sep as [|d sep']; [congruence|].
        simpl in Hbehind. injection Hbehind as -> ->.
        rewrite join_cons by apply split_from_nonempty.
        rewrite (IH (String.length (String d sep') - 1) "" sep' behind);
          [reflexivity | reflexivity | simpl; lia].
      * rewrite (IH 0 (cur ++ String c "")%string "" s); [|reflexivity|reflexivity].
        now rewrite string_app_assoc.
    + destruct skipped as [|d skipped]; [discriminate|].
      simpl in Hs, Hk. injection Hs as -> ->. injection Hk as <-.
      now apply (IH (String.length skipped) cur skipped rest).
Qed.

Lemma split_join (sep s : string) : sep <> "" -> join sep (split sep s) = s.
Proof.
  intros Hsep. unfold split.
  now rewrite (split_from_join sep Hsep s 0 "" "" s).
Qed.

Example split_two : split ", " "Pizza, Burger" = ["Pizza"; "Burger"].
Proof. reflexivity. Qed.

Example split_odd : split ", " "a,, b, " = ["a,"; "b"; ""].
Proof. reflexivity. Qed.

Example strip_blanks : strip "  North Indian  " = "North Indian".
Proof. reflexivity. Qed.

Example contains_inside : contains "Chinese" "South Chinese, Thai" = true.
Proof. reflexivity. Qed.

(** A no-break space (U+00A0, bytes C2 A0) on either side is trimmed, an
    inner one is kept, and a character that only shares bytes with a white
    space character (U+00C5, bytes C3 85) stays. *)
Example strip_no_break_space :
  strip (String (ascii_of_nat 194) (String (ascii_of_nat 160)
           ("Tex" ++ String (ascii_of_nat 194) (String (ascii_of_nat 160)
           ("Mex" ++ String (ascii_of_nat 194) (String (ascii_of_nat 160) " "))))))
  = "Tex" ++ String (ascii_of_nat 194) (String (ascii_of_nat 160) "Mex")
  /\ strip (" " ++ String (ascii_of_nat 195) (String (ascii_of_nat 133) " "))
     = String (ascii_of_nat 195) (String (ascii_of_nat 133) "").
Proof. split; reflexivity. Qed.

Lemma insert_str_perm (x : string) (l : list string) :
  Permutation (x :: l) (insert_str x l).
Proof.
  induction l as [|y l IH]; simpl; [reflexivity|].
  destruct (String.leb x y); [reflexivity|].
  rewrite perm_swap. now constructor.
Qed.

Lemma sorted_str_perm (l : list string) : Permutation l (sorted_str l).
Proof.
  induction l as [|x l IH]; simpl; [constructor|].
  rewrite <- insert_str_perm. now constructor.
Qed.

Lemma insert_str_ascending (x : string) (l : list string) :
  ascending l -> ascending (insert_str x l).
Proof.
  unfold ascending.
  induction l as [|y l IH]; intros Hl; simpl.
  - repeat constructor.
  - destruct (String.leb x y) eqn:Hxy.
    + constructor; [assumption | now constructor].
    + inversion Hl as [|? ? Hs Hhd]; subst.
      constructor; [now apply IH|].
      assert (Hyx : String.leb y x = true)
        by (destruct (String.leb_total x y); congruence).
      destruct l as [|z l]; simpl.
      * now constructor.
      * destruct (String.leb x z); constructor; [assumption|].
        now inversion Hhd.
Qed.

Lemma sorted_str_ascending (l : list string) : ascending (sorted_str l).
Proof.
  induction l as [|x l IH]; simpl.
  - constructor.
  - now apply insert_str_ascending.
Qed.

Lemma truthy_items {A : Type} (v : option (list A)) :
  truthy v = false <-> items v = [].
Proof.
  destruct v as [[|a l]|]; simpl; split; congruence.
Qed.

End PyFacts.

(* ------------------------------------------------------------------ *)
(** ** Facts about the pandas operations *)
(* ------------------------------------------------------------------ *)

Section PdFacts.
Import Py Pd.

Lemma Subseq_refl {A : Type} (l : list A) : Subseq l l.
Proof. induction l; now constructor. Qed.

Lemma Subseq_trans {A : Type} (l1 l2 l3 : list A) :
  Subseq l1 l2 -> Subseq l2 l3 -> Subseq l1 l3.
Proof.
  intros H12 H23; revert l1 H12.
  induction H23 as [|a l2 l3 _ IH|a l2 l3 _ IH]; intros l1 H12.
  - assumption.
  - constructor. now apply IH.
  - inversion H12; subst; constructor; now apply IH.
Qed.

Lemma Subseq_In {A : Type} (l1 l2 : list A) (a : A) :
  Subseq l1 l2 -> In a l1 -> In a l2.
Proof.
  induction 1 as [|b l1 l2 _ IH|b l1 l2 _ IH]; simpl; intuition.
Qed.

Lemma filter_Subseq {A : Type} (p : A -> bool) (l : list A) :
  Subseq (filter p l) l.
Proof.
  induction l as [|a l IH]; simpl; [constructor|].
  destruct (p a); now constructor.
Qed.

(** Indexing with a mask computed row by row is [filter]. *)
Lemma select_map {A : Type} (p : A -> bool) (l : list A) :
  select (map p l) l = filter p l.
Proof.
  unfold select. induction l as [|a l IH]; simpl; [reflexivity|].
  destruct (p a); simpl; now rewrite IH.
Qed.

Lemma select_Subseq {A : Type} (mask : list bool) (l : list A) :
  Subseq (select mask l) l.
Proof.
  unfold select. revert mask.
  induction l as [|a l IH]; intros [|b mask]; simpl;
    try apply Subseq_nil.
  - constructor. apply (IH []).
  - destruct b; simpl; constructor; apply IH.
Qed.

Lemma isin_map {A : Type} (column : A -> cell) (values : list string) (l : list A) :
  isin (map column l) values
  = map (fun r => match column r with
                  | Some s => existsb (String.eqb s) values
                  | None => false
                  end) l.
Proof. unfold isin. now rewrite map_map. Qed.

Lemma existsb_eqb_In (s : string) (values : list string) :
  existsb (String.eqb s) values = true <-> In s values.
Proof.
  rewrite existsb_exists. split.
  - intros [v [Hin Heq]]. apply String.eqb_eq in Heq. now subst.
  - intros Hin. exists s. split; [assumption | apply String.eqb_refl].
Qed.

Lemma cell_eqb_eq (a b : cell) : cell_eqb a b = true <-> a = b.
Proof.
  destruct a as [x|], b as [y|]; simpl; try (split; congruence).
  rewrite String.eqb_eq. split; congruence.
Qed.

Lemma unique_In (c : cell) (col : list cell) : In c (unique col) <-> In c col.
Proof.
  induction col as [|d col IH]; simpl; [reflexivity|].
  rewrite filter_In, IH.
  destruct (cell_eqb d c) eqn:E; simpl.
  - apply cell_eqb_eq in E. intuition.
  - assert (d <> c) by (intros ->; rewrite (proj2 (cell_eqb_eq c c)) in E; congruence).
    intuition.
Qed.

Lemma unique_NoDup (col : list cell) : NoDup (unique col).
Proof.
  induction col as [|d col IH]; simpl; constructor.
  - rewrite filter_In. intros [_ H].
    rewrite (proj2 (cell_eqb_eq d d)) in H by reflexivity. discriminate.
  - now apply NoDup_filter.
Qed.

Lemma dropna_cells_In (s : string) (col : list cell) :
  In s (dropna_cells col) <-> In (Some s) col.
Proof.
  induction col as [|[t|] col IH]; simpl; [reflexivity| |].
  - rewrite IH. split; intros [H|H]; auto; left; congruence.
  - rewrite IH. split; [auto | intros [H|H]; [discriminate | assumption]].
Qed.

Lemma dropna_cells_NoDup (col : list cell) :
  NoDup col -> NoDup (dropna_cells col).
Proof.
  induction 1 as [|[t|] col Hnin _ IH]; simpl; [constructor| |assumption].
  constructor; [|assumption]. now rewrite dropna_cells_In.
Qed.

(** On values without NaN, [sorted] returns and sorts the strings. *)
Lemma sorted_strings (values : list cell) :
  existsb isna values = false ->
  sorted values = inr (map Some (sorted_str (dropna_cells values))).
Proof.
  intros Hnone. unfold sorted. rewrite Hnone.
  destruct values as [|[s|] values]; simpl in *; try reflexivity; discriminate.
Qed.

Lemma insert_desc_perm (x : string * nat) (l : list (string * nat)) :
  Permutation (x :: l) (insert_desc x l).
Proof.
  induction l as [|y l IH]; simpl; [reflexivity|].
  destruct (Nat.ltb (snd x) (snd y)); [|reflexivity].
  rewrite perm_swap. now constructor.
Qed.

Lemma sort_desc_perm (l : list (string * nat)) : Permutation l (sort_desc l).
Proof.
  induction l as [|x l IH]; simpl; [constructor|].
  rewrite <- insert_desc_perm. now constructor.
Qed.

Lemma insert_desc_descending (x : string * nat) (l : list (string * nat)) :
  descending_by_count l -> descending_by_count (insert_desc x l).
Proof.
  unfold descending_by_count.
  induction l as [|y l IH]; intros Hl; simpl.
  - repeat constructor.
  - inversion Hl as [|? ? Hs Hall]; subst.
    destruct (Nat.ltb (snd x) (snd y)) eqn:Hxy.
    + apply Nat.ltb_lt in Hxy.
      constructor; [now apply IH|].
      rewrite Forall_forall. intros z Hz.
      apply (Permutation_in _ (Permutation_sym (insert_desc_perm x l))) in Hz.
      destruct Hz as [<-|Hz]; [lia|].
      rewrite Forall_forall in Hall. now apply Hall.
    + apply Nat.ltb_ge in Hxy.
      constructor; [assumption|].
      constructor; [assumption|].
      rewrite Forall_forall in *. intros z Hz. specialize (Hall z Hz). lia.
Qed.

Lemma sort_desc_descending (l : list (string * nat)) :
  descending_by_count (sort_desc l).
Proof.
  induction l as [|x l IH]; simpl.
  - constructor.
  - now apply insert_desc_descending.
Qed.

Lemma firstn_descending (n : nat) (l : list (string * nat)) :
  descending_by_count l -> descending_by_count (firstn n l).
Proof.
  unfold descending_by_count. intros Hl; revert n.
  induction Hl as [|a l _ IH Hall]; intros [|n]; simpl; try constructor.
  - apply IH.
  - rewrite Forall_forall in *. intros z Hz. apply Hall.
    eapply Subseq_In; [|exact Hz].
    rewrite <- (firstn_skipn n l) at 2.
    clear. induction (firstn n l); simpl.
    + induction (skipn n l); now constructor.
    + now constructor.
Qed.

Lemma nlargest_length (n : nat) (counts : list (string * nat)) :
  length (nlargest n counts) <= n.
Proof. unfold nlargest. rewrite length_firstn. lia. Qed.

Lemma nlargest_descending (n : nat) (counts : list (string * nat)) :
  descending_by_count (nlargest n counts).
Proof. apply firstn_descending, sort_desc_descending. Qed.

(** What [value_counts] reports: every string of the column, once, with the
    number of its occurrences. *)
Lemma value_counts_In (k : string) (c : nat) (col : list cell) :
  In (k, c) (value_counts col) <-> In (Some k) col /\ c = count k col.
Proof.
  unfold value_counts. split.
  - intros Hin.
    apply (Permutation_in _ (Permutation_sym (sort_desc_perm _))) in Hin.
    apply in_map_iff in Hin. destruct Hin as [k' [Heq Hk]].
    injection Heq as -> <-.
    rewrite dropna_cells_In, unique_In in Hk. now split.
  - intros [Hin ->].
    apply (Permutation_in _ (sort_desc_perm _)).
    apply in_map_iff. exists k. split; [reflexivity|].
    now rewrite dropna_cells_In, unique_In.
Qed.

Lemma value_counts_keys_NoDup (col : list cell) :
  NoDup (map fst (value_counts col)).
Proof.
  unfold value_counts.
  eapply Permutation_NoDup;
    [apply Permutation_map, sort_desc_perm|].
  rewrite map_map. simpl. rewrite map_id.
  apply dropna_cells_NoDup, unique_NoDup.
Qed.

(** What [nlargest] leaves out has a count no higher than what it keeps. *)
Lemma nlargest_top (n : nat) (counts : list (string * nat)) (a b : string * nat) :
  In a (nlargest n counts) -> In b (skipn n (sort_desc counts)) -> snd b <= snd a.
Proof.
  unfold nlargest.
  pose proof (sort_desc_descending counts) as Hsorted.
  unfold descending_by_count in Hsorted.
  revert n. induction Hsorted as [|x l _ IH Hall]; intros n Ha Hb.
  - destruct n; contradiction.
  - destruct n as [|n]; [contradiction|]. simpl in Ha, Hb.
    destruct Ha as [<- | Ha].
    + rewrite Forall_forall in Hall. apply Hall.
      rewrite <- (firstn_skipn n l). apply in_or_app. now right.
    + now apply (IH n).
Qed.

Example value_counts_ties :
  value_counts [Some "a"; Some "b"; None; Some "b"; Some "c"; Some "c";
                Some "a"; Some "d"; Some "c"]
  = [("c", 3); ("a", 2); ("b", 2); ("d", 1)].
Proof. reflexivity. Qed.

End PdFacts.

(* ------------------------------------------------------------------ *)
(** ** Start-up: what the module body leaves in [df] *)
(* ------------------------------------------------------------------ *)

Section StartupFacts.
Import Py Pd App.

Variable parse : string -> option float.

Lemma read_text_nonempty (field s : string) :
  read_text field = Some s -> s <> "".
Proof.
  unfold read_text. destruct (is_na_field field) eqn:Hna; [discriminate|].
  intros [= <-] ->. discriminate.
Qed.

Lemma isna_false (c : cell) : isna c = false <-> exists s, c = Some s.
Proof.
  destruct c as [s|]; simpl; split; try congruence.
  - intros _. now exists s.
  - intros [s Hs]. discriminate.
Qed.

Lemma no_nan_existsb (col : list cell) :
  ~ In None col -> existsb isna col = false.
Proof.
  intros Hno. destruct (existsb isna col) eqn:E; [|reflexivity].
  apply existsb_exists in E. destruct E as [[s|] [Hin Hna]]; [discriminate|].
  contradiction.
Qed.

Lemma complete_valid (rec : CsvRecord) :
  complete (coerce parse (read_record rec)) = true <->
  valid_row (coerce parse (read_record rec)).
Proof.
  unfold complete, valid_row; simpl.
  rewrite !andb_true_iff, !negb_true_iff, !isna_false.
  split.
  - intros [[[[Hp Ha] [s Hs]] [c Hc]] [f Hf]].
    repeat split; try assumption.
    + exists s. split; [assumption | now apply (read_text_nonempty _ _ Hs)].
    + exists c. split; [assumption | now apply (read_text_nonempty _ _ Hc)].
    + exists f. split; [assumption | now apply (read_text_nonempty _ _ Hf)].
  - intros [Hp [Ha [[s [Hs _]] [[c [Hc _]] [f [Hf _]]]]]].
    repeat split; eauto.
Qed.

(** Tokens of rows that all have a food type are all strings. *)
Lemma cuisine_tokens_strings (rows : DataFrame) :
  (forall r, In r rows -> exists s, Food_type r = Some s) ->
  ~ In None (cuisine_tokens rows).
Proof.
  unfold cuisine_tokens, str_strip, explode, str_split.
  intros Hfood Hin.
  apply in_map_iff in Hin. destruct Hin as [tok [Hstrip Hin]].
  destruct tok as [t|]; [discriminate|].
  apply in_flat_map in Hin. destruct Hin as [pieces [Hpieces Hin]].
  apply in_map_iff in Hpieces. destruct Hpieces as [c [Hc Hcin]].
  apply in_map_iff in Hcin. destruct Hcin as [r [Hr Hrin]].
  destruct (Hfood r Hrin) as [s Hs].
  rewrite Hs in Hr. subst c. simpl in Hc. subst pieces.
  destruct (split ", " s) as [|p ps] eqn:Hsplit.
  - now apply split_from_nonempty in Hsplit.
  - apply in_map_iff in Hin. destruct Hin as [? [? _]]. discriminate.
Qed.

Lemma dropna_rows (raw : list RawRow) (r : Row) :
  In r (dropna (map (coerce parse) raw)) <->
  In r (map (coerce parse) raw) /\ complete r = true.
Proof. unfold dropna. apply filter_In. Qed.

(** With the file in place the module body ends at line 27: with the state
    set when [.str] can be taken, with [AttributeError] otherwise. *)
Lemma module_body_Csv_outcome (fs : filesystem) (records : list CsvRecord) :
  fs csv_path = Csv records ->
  module_body parse fs
  = if str_accessor
         (column_kind_of parse (map raw_Food_type (map read_record records)))
         (dropna (map (coerce parse) (map read_record records)))
    then Serving
           {| df := dropna (map (coerce parse) (map read_record records));
              all_cuisines :=
                map Some
                    (sorted_str
                       (dropna_cells
                          (unique
                             (cuisine_tokens
                                (dropna (map (coerce parse)
                                             (map read_record records))))))) |}
    else Uncaught AttributeError.
Proof.
  intros Hfile. unfold module_body, read_csv. rewrite Hfile.
  rewrite sorted_strings; [reflexivity|].
  apply no_nan_existsb. rewrite unique_In.
  apply cuisine_tokens_strings.
  intros r Hr. apply dropna_rows in Hr. destruct Hr as [_ Hc].
  unfold complete in Hc. rewrite !andb_true_iff, !negb_true_iff in Hc.
  now apply isna_false.
Qed.

Lemma module_body_Csv (fs : filesystem) (records : list CsvRecord) :
  fs csv_path = Csv records ->
  str_accessor
    (column_kind_of parse (map raw_Food_type (map read_record records)))
    (dropna (map (coerce parse) (map read_record records))) = true ->
  exists cuisines,
    module_body parse fs
    = Serving {| df := dropna (map (coerce parse) (map read_record records));
                 all_cuisines := cuisines |}.
Proof.
  intros Hfile Hstr. rewrite (module_body_Csv_outcome fs records Hfile), Hstr.
  eexists; reflexivity.
Qed.

(** A served store comes from a file that was there. *)
Lemma module_body_Serving (fs : filesystem) (s : store) :
  module_body parse fs = Serving s ->
  exists records,
    fs csv_path = Csv records
    /\ df s = dropna (map (coerce parse) (map read_record records)).
Proof.
  intros Hrun.
  destruct (fs csv_path) as [| class message | records] eqn:Hfile.
  - unfold module_body, read_csv in Hrun. rewrite Hfile in Hrun. discriminate.
  - unfold module_body, read_csv in Hrun. rewrite Hfile in Hrun. discriminate.
  - exists records. split; [reflexivity|].
    rewrite (module_body_Csv_outcome fs records Hfile) in Hrun.
    destruct (str_accessor _ _); [|discriminate].
    inversion Hrun. reflexivity.
Qed.

Lemma served_rows_valid (fs : filesystem) (s : store) :
  module_body parse fs = Serving s -> forall r, In r (df s) -> valid_row r.
Proof.
  intros Hrun r Hr.
  destruct (module_body_Serving fs s Hrun) as [records [_ Hdf]].
  rewrite Hdf in Hr. apply dropna_rows in Hr. destruct Hr as [Hin Hc].
  rewrite map_map in Hin. apply in_map_iff in Hin.
  destruct Hin as [rec [<- _]]. now apply complete_valid.
Qed.

End StartupFacts.

(* ------------------------------------------------------------------ *)
(** ** The callbacks *)
(* ------------------------------------------------------------------ *)

Section CallbackFacts.
Import Py Pd App.

Lemma select_map_comm {A B : Type} (f : A -> B) (mask : list bool) (l : list A) :
  map f (select mask l) = select mask (map f l).
Proof.
  unfold select. revert mask.
  induction l as [|a l IH]; intros [|b mask]; simpl; try reflexivity.
  destruct b; simpl; now rewrite IH.
Qed.

(** The price test of lines 136-139. *)
Lemma price_stage_In (price_range : float * float) (l : DataFrame) (r : Row) :
  In r (select (map (fun p => PrimFloat.leb (fst price_range) p
                              && PrimFloat.leb p (snd price_range))
                    (map Price l)) l)
  <-> In r l /\ in_price_range price_range (Price r).
Proof.
  rewrite map_map, select_map, filter_In, andb_true_iff. reflexivity.
Qed.

(** An [isin] test that is skipped when nothing is selected (lines 140-143). *)
Lemma isin_stage_In (column : Row -> cell) (v : option (list string))
      (l : DataFrame) (r : Row) :
  In r (if truthy v then select (isin (map column l) (items v)) l else l)
  <-> In r l /\ (items v = [] \/ exists s, column r = Some s /\ In s (items v)).
Proof.
  destruct (truthy v) eqn:Hv.
  - rewrite isin_map, select_map, filter_In.
    assert (Hne : items v <> []) by (rewrite <- truthy_items; congruence).
    split.
    + intros [Hin Hsel]. split; [assumption|]. right.
      destruct (column r) as [s|]; [|discriminate].
      exists s. split; [reflexivity | now apply existsb_eqb_In].
    + intros [Hin [Hempty | [s [Hs Hsel]]]]; [contradiction|].
      split; [assumption|]. rewrite Hs. now apply existsb_eqb_In.
  - apply truthy_items in Hv. intuition.
Qed.

Lemma isin_stage_Subseq (column : Row -> cell) (v : option (list string))
      (l : DataFrame) :
  Subseq (if truthy v then select (isin (map column l) (items v)) l else l) l.
Proof.
  destruct (truthy v); [apply select_Subseq | apply Subseq_refl].
Qed.

Lemma any_cuisine_in_str (selected_cuisines : list string) (s : string) :
  any_cuisine_in selected_cuisines (Some s)
  = inr (existsb (fun cuisine => contains cuisine s) selected_cuisines).
Proof.
  induction selected_cuisines as [|c rest IH]; simpl; [reflexivity|].
  destruct (contains c s); [reflexivity | exact IH].
Qed.

Lemma apply_total {A B : Type} (f : A -> exn + B) (g : A -> B) (col : list A) :
  (forall a, In a col -> f a = inr (g a)) -> apply f col = inr (map g col).
Proof.
  induction col as [|a col IH]; intros Hf; simpl; [reflexivity|].
  rewrite (Hf a) by now left.
  rewrite IH by (intros b Hb; apply Hf; now right).
  reflexivity.
Qed.

(** The cuisine test of lines 144-146 on rows that all have a food type. *)
Lemma cuisine_stage (v : option (list string)) (l : DataFrame) (s : store) :
  (forall r, In r l -> exists f, Food_type r = Some f) ->
  exists view,
    (if truthy v
     then mask <- lift (apply (any_cuisine_in (items v)) (map Food_type l)) ;;
          ret (select mask l)
     else ret l) s = (inr view, s)
    /\ Subseq view l
    /\ forall r, In r view <->
         In r l /\ (items v = []
                    \/ exists cuisine f, In cuisine (items v)
                                         /\ Food_type r = Some f
                                         /\ Substring cuisine f).
Proof.
  intros Hfood. destruct (truthy v) eqn:Hv.
  - assert (Hne : items v <> []) by (rewrite <- truthy_items; congruence).
    pose (hit := fun r : Row =>
                   match Food_type r with
                   | Some f => existsb (fun cuisine => contains cuisine f) (items v)
                   | None => false
                   end).
    assert (Hmask : apply (any_cuisine_in (items v)) (map Food_type l)
                    = inr (map hit l)).
    { unfold hit.
      rewrite <- (map_map Food_type
                    (fun c => match c with
                              | Some f => existsb (fun cuisine => contains cuisine f) (items v)
                              | None => false
                              end) l).
      apply apply_total. intros c Hc.
      apply in_map_iff in Hc. destruct Hc as [r [<- Hr]].
      destruct (Hfood r Hr) as [f ->]. apply any_cuisine_in_str. }
    exists (filter hit l). unfold bind. rewrite Hmask. simpl.
    rewrite select_map. split; [reflexivity|].
    split; [apply filter_Subseq|].
    intros r. rewrite filter_In. unfold hit. split.
    + intros [Hin Hhit]. split; [assumption|]. right.
      destruct (Food_type r) as [f|]; [|discriminate].
      apply existsb_exists in Hhit. destruct Hhit as [c [Hc Hsub]].
      exists c, f. repeat split; [assumption|]. now apply contains_Substring.
    + intros [Hin [Hempty | [c [f [Hc [Hf Hsub]]]]]]; [contradiction|].
      split; [assumption|]. rewrite Hf. apply existsb_exists.
      exists c. split; [assumption | now apply contains_Substring].
  - exists l. split; [reflexivity|]. split; [apply Subseq_refl|].
    apply truthy_items in Hv. intuition.
Qed.

(** Lines 132-146 on a table whose rows all have a food type: the call
    returns, leaves the store as it was, and its rows are described by the
    four tests. *)
Lemma filtered_view_rows
      (selected_states selected_cities selected_cuisines : option (list string))
      (price_range : float * float) (s : store) :
  (forall r, In r (df s) -> exists f, Food_type r = Some f) ->
  exists view,
    filtered_view selected_states selected_cities selected_cuisines price_range s
    = (inr view, s)
    /\ Subseq view (df s)
    /\ (items selected_states = [] -> items selected_cities = [] ->
        items selected_cuisines = [] -> view = df s)
    /\ (items selected_states <> [] \/ items selected_cities <> []
        \/ items selected_cuisines <> [] ->
        forall r, In r view <->
          In r (df s)
          /\ in_price_range price_range (Price r)
          /\ (items selected_states = []
              \/ exists st, State r = Some st /\ In st (items selected_states))
          /\ (items selected_cities = []
              \/ exists c, City r = Some c /\ In c (items selected_cities))
          /\ (items selected_cuisines = []
              \/ exists cuisine f, In cuisine (items selected_cuisines)
                                   /\ Food_type r = Some f
                                   /\ Substring cuisine f)).
Proof.
  intros Hfood. unfold filtered_view, bind, global_df.
  destruct (negb (truthy selected_states) && negb (truthy selected_cities)
            && negb (truthy selected_cuisines)) eqn:Hnone.
  - exists (df s). split; [reflexivity|]. split; [apply Subseq_refl|].
    split; [reflexivity|].
    rewrite !andb_true_iff, !negb_true_iff, !truthy_items in Hnone.
    intros [H | [H | H]]; exfalso; apply H; tauto.
  - cbv zeta.
    set (by_price := select _ (df s)).
    set (by_state := if truthy selected_states then _ else by_price).
    set (by_city := if truthy selected_cities then _ else by_state).
    assert (Hsub : Subseq by_city (df s)).
    { apply Subseq_trans with by_state; [apply isin_stage_Subseq|].
      apply Subseq_trans with by_price; [apply isin_stage_Subseq|].
      apply select_Subseq. }
    destruct (cuisine_stage selected_cuisines by_city s) as [view [Hrun [Hv Hin]]].
    { intros r Hr. apply Hfood. now apply (Subseq_In _ _ _ Hsub). }
    exists view. split; [exact Hrun|].
    split; [now apply Subseq_trans with by_city|].
    split.
    + intros H1 H2 H3.
      rewrite !andb_false_iff, !negb_false_iff in Hnone.
      rewrite <- truthy_items in H1, H2, H3.
      destruct Hnone as [[H|H]|H]; congruence.
    + intros _ r. rewrite Hin. unfold by_city. rewrite isin_stage_In.
      unfold by_state. rewrite isin_stage_In.
      unfold by_price. rewrite price_stage_In. tauto.
Qed.

(** Neither callback writes to the store. *)
Lemma set_cities_options_after (selected_states : option (list string)) (s : store) :
  after (set_cities_options selected_states) s = s.
Proof.
  unfold after, set_cities_options, bind, global_df, lift, ret, raise.
  destruct (negb (truthy selected_states)); [reflexivity|]. simpl.
  destruct (sorted _); reflexivity.
Qed.

Lemma filtered_view_after
      (selected_states selected_cities selected_cuisines : option (list string))
      (price_range : float * float) (s : store) :
  after (filtered_view selected_states selected_cities selected_cuisines
                       price_range) s = s.
Proof.
  unfold after, filtered_view, bind, global_df, lift, ret, raise.
  destruct (negb (truthy selected_states) && negb (truthy selected_cities)
            && negb (truthy selected_cuisines)); [reflexivity|].
  cbv zeta. destruct (truthy selected_cuisines); [|reflexivity].
  destruct (apply _ _); reflexivity.
Qed.

Lemma filtered_frame_after
      (selected_states selected_cities selected_cuisines : option (list string))
      (price_range : float * float) (s : store) :
  after (filtered_frame selected_states selected_cities selected_cuisines
                        price_range) s = s.
Proof.
  unfold after, filtered_frame, bind, global_df, lift, ret, raise.
  destruct (negb (truthy selected_states) && negb (truthy selected_cities)
            && negb (truthy selected_cuisines)); [reflexivity|].
  cbv zeta. destruct (truthy selected_cuisines); [|reflexivity].
  destruct (apply _ _); reflexivity.
Qed.

Lemma update_graphs_after
      (selected_states selected_cities selected_cuisines : option (list string))
      (price_range : float * float) (s : store) :
  after (update_graphs selected_states selected_cities selected_cuisines
                       price_range) s = s.
Proof.
  pose proof (filtered_frame_after selected_states selected_cities
                selected_cuisines price_range s) as H.
  unfold after, update_graphs, bind, ret, raise in *.
  destruct (filtered_frame _ _ _ _ s) as [[e|[view [|]]] s']; simpl in *;
    assumption.
Qed.

(** The mask of line 145 on rows that all have a food type. *)
Lemma cuisine_mask (selected_cuisines : list string) (l : DataFrame) :
  (forall r, In r l -> exists f, Food_type r = Some f) ->
  apply (any_cuisine_in selected_cuisines) (map Food_type l)
  = inr (map (fun r => match Food_type r with
                       | Some f => existsb (fun cuisine => contains cuisine f)
                                           selected_cuisines
                       | None => false
                       end) l).
Proof.
  intros Hfood.
  rewrite <- (map_map Food_type
                (fun c => match c with
                          | Some f => existsb (fun cuisine => contains cuisine f)
                                              selected_cuisines
                          | None => false
                          end) l).
  apply apply_total. intros c Hc.
  apply in_map_iff in Hc. destruct Hc as [r [<- Hr]].
  destruct (Hfood r Hr) as [f ->]. apply any_cuisine_in_str.
Qed.

(** Lines 132-146 with the columns: on a table whose rows all have a food
    type the frame has the rows of [filtered_view], and it is without
    columns exactly when a cuisine is selected and no row of [df] passes the
    price, state and city tests. *)
Lemma filtered_frame_rows
      (selected_states selected_cities selected_cuisines : option (list string))
      (price_range : float * float) (s : store) :
  (forall r, In r (df s) -> exists f, Food_type r = Some f) ->
  exists view flag,
    filtered_view selected_states selected_cities selected_cuisines price_range s
    = (inr view, s)
    /\ filtered_frame selected_states selected_cities selected_cuisines
                      price_range s
       = (inr {| rows := view; has_columns := flag |}, s)
    /\ (flag = false -> view = [])
    /\ (flag = false <->
        items selected_cuisines <> []
        /\ forall r, In r (df s) ->
             ~ (in_price_range price_range (Price r)
                /\ (items selected_states = []
                    \/ exists st, State r = Some st /\ In st (items selected_states))
                /\ (items selected_cities = []
                    \/ exists c, City r = Some c /\ In c (items selected_cities)))).
Proof.
  intros Hfood. unfold filtered_view, filtered_frame, bind, global_df.
  destruct (negb (truthy selected_states) && negb (truthy selected_cities)
            && negb (truthy selected_cuisines)) eqn:Hnone.
  - exists (df s), true. split; [reflexivity|]. split; [reflexivity|].
    split; [discriminate|].
    rewrite !andb_true_iff, !negb_true_iff, !truthy_items in Hnone.
    split; [discriminate | intros [H _]; tauto].
  - cbv zeta.
    set (by_price := select _ (df s)).
    set (by_state := if truthy selected_states then _ else by_price).
    set (by_city := if truthy selected_cities then _ else by_state).
    assert (Hin : forall r, In r by_city <->
              In r (df s)
              /\ in_price_range price_range (Price r)
              /\ (items selected_states = []
                  \/ exists st, State r = Some st /\ In st (items selected_states))
              /\ (items selected_cities = []
                  \/ exists c, City r = Some c /\ In c (items selected_cities))).
    { intros r. unfold by_city. rewrite isin_stage_In.
      unfold by_state. rewrite isin_stage_In.
      unfold by_price. rewrite price_stage_In. tauto. }
    destruct (truthy selected_cuisines) eqn:Hcu.
    + assert (Hne : items selected_cuisines <> [])
        by (rewrite <- truthy_items; congruence).
      rewrite cuisine_mask
        by (intros r Hr; apply Hfood; now apply (proj1 (Hin r))).
      unfold lift, ret. destruct by_city as [|r0 rest] eqn:Hrows.
      * exists [], false. split; [reflexivity|]. split; [reflexivity|].
        split; [reflexivity|]. split; [|reflexivity].
        intros _. split; [assumption|].
        intros r Hr Hpass. apply (proj2 (Hin r)). tauto.
      * eexists. exists true. split; [reflexivity|]. split; [reflexivity|].
        split; [discriminate|]. split; [discriminate|].
        intros [_ Hno]. exfalso.
        destruct (proj1 (Hin r0)) as [Hr0 Hpass]; [now left|].
        now apply (Hno r0).
    + exists by_city, true. split; [reflexivity|]. split; [reflexivity|].
      split; [discriminate|].
      apply truthy_items in Hcu. split; [discriminate | intros [H _]; tauto].
Qed.

Lemma serve_all_same (es : list event) (s : store) : serve_all es s = s.
Proof.
  unfold serve_all. revert s.
  induction es as [|e es IH]; intros s; simpl; [reflexivity|].
  replace (serve e s) with s; [apply IH|].
  destruct e; simpl; symmetry;
    [apply set_cities_options_after | apply update_graphs_after].
Qed.

End CallbackFacts.

(* ------------------------------------------------------------------ *)
(** ** Properties of the filter *)
(* ------------------------------------------------------------------ *)

Section FilterProperties.
Import Py Pd App.

(** C1. With the three categorical selections empty ([None] or [[]]),
    [update_graphs] takes the whole of [df] as its filtered table, whatever
    the price range is, and builds the three figures from it. *)
Theorem no_filter_returns_base
        (s : store)
        (selected_states selected_cities selected_cuisines : option (list string))
        (price_range : float * float) :
  items selected_states = [] ->
  items selected_cities = [] ->
  items selected_cuisines = [] ->
  result (filtered_view selected_states selected_cities selected_cuisines
                        price_range) s = inr (df s)
  /\ result (update_graphs selected_states selected_cities selected_cuisines
                           price_range) s = inr (build_figures (df s)).
Proof.
  intros Hs Hc Hf. apply truthy_items in Hs, Hc, Hf.
  unfold result, update_graphs, filtered_view, filtered_frame, bind, global_df.
  rewrite Hs, Hc, Hf. simpl. split; reflexivity.
Qed.

Lemma no_filter_returns_base_witness :
  result (filtered_view None (Some []) None (5000, 0)%float) Sample.shop
  = inr (df Sample.shop)
  /\ result (update_graphs None (Some []) None (5000, 0)%float) Sample.shop
     = inr (build_figures (df Sample.shop)).
Proof.
  apply (no_filter_returns_base Sample.shop None (Some []) None (5000, 0)%float);
    reflexivity.
Defined.

(** C2. On the table left by start-up, when at least one categorical
    selection is non-empty the call returns, and a row is in the filtered
    table exactly when it is a row of [df] whose price is in the closed
    range, whose state is selected (or no state is), whose city is selected
    (or no city is), and whose food type string contains one of the selected
    cuisines as a substring (or no cuisine is selected). *)
Theorem conjunctive_filtering
        (parse : string -> option float) (fs : filesystem) (s : store)
        (selected_states selected_cities selected_cuisines : option (list string))
        (price_range : float * float) :
  module_body parse fs = Serving s ->
  items selected_states <> [] \/ items selected_cities <> []
  \/ items selected_cuisines <> [] ->
  exists view,
    result (filtered_view selected_states selected_cities selected_cuisines
                          price_range) s = inr view
    /\ forall r, In r view <->
         In r (df s)
         /\ in_price_range price_range (Price r)
         /\ (items selected_states = []
             \/ exists st, State r = Some st /\ In st (items selected_states))
         /\ (items selected_cities = []
             \/ exists c, City r = Some c /\ In c (items selected_cities))
         /\ (items selected_cuisines = []
             \/ exists cuisine f, In cuisine (items selected_cuisines)
                                  /\ Food_type r = Some f
                                  /\ Substring cuisine f).
Proof.
  intros Hrun Hactive.
  destruct (filtered_view_rows selected_states selected_cities selected_cuisines
              price_range s) as [view [Heq [_ [_ Hrows]]]].
  - intros r Hr.
    destruct (served_rows_valid parse fs s Hrun r Hr) as [_ [_ [_ [_ [f [Hf _]]]]]].
    now exists f.
  - exists view. unfold result. rewrite Heq. split; [reflexivity|].
    now apply Hrows.
Qed.

Lemma conjunctive_filtering_witness :
  exists view,
    result (filtered_view (Some ["Maharashtra"]) None (Some ["Pizza"; "Thai"])
                          (0, 1000)%float) Sample.shop = inr view
    /\ forall r, In r view <->
         In r (df Sample.shop)
         /\ in_price_range (0, 1000)%float (Price r)
         /\ (items (Some ["Maharashtra"]) = []
             \/ exists st, State r = Some st /\ In st (items (Some ["Maharashtra"])))
         /\ (items (@None (list string)) = []
             \/ exists c, City r = Some c /\ In c (items (@None (list string))))
         /\ (items (Some ["Pizza"; "Thai"]) = []
             \/ exists cuisine f, In cuisine (items (Some ["Pizza"; "Thai"]))
                                  /\ Food_type r = Some f
                                  /\ Substring cuisine f).
Proof.
  apply (conjunctive_filtering Sample.parse_decimal Sample.disk Sample.shop).
  - reflexivity.
  - left. discriminate.
Defined.

(** C7. On the table left by start-up, for every selection and price range
    the call returns a filtered table whose rows are rows of [df] in their
    original relative order. *)
Theorem filtered_view_keeps_order
        (parse : string -> option float) (fs : filesystem) (s : store)
        (selected_states selected_cities selected_cuisines : option (list string))
        (price_range : float * float) :
  module_body parse fs = Serving s ->
  exists view,
    result (filtered_view selected_states selected_cities selected_cuisines
                          price_range) s = inr view
    /\ Subseq view (df s).
Proof.
  intros Hrun.
  destruct (filtered_view_rows selected_states selected_cities selected_cuisines
              price_range s) as [view [Heq [Hsub _]]].
  - intros r Hr.
    destruct (served_rows_valid parse fs s Hrun r Hr) as [_ [_ [_ [_ [f [Hf _]]]]]].
    now exists f.
  - exists view. unfold result. rewrite Heq. split; [reflexivity | assumption].
Qed.

Lemma filtered_view_keeps_order_witness :
  exists view,
    result (filtered_view None (Some ["Pune"; "Bengaluru"]) None
                          (0, 1000)%float) Sample.shop = inr view
    /\ Subseq view (df Sample.shop).
Proof.
  apply (filtered_view_keeps_order Sample.parse_decimal Sample.disk Sample.shop).
  reflexivity.
Defined.

End FilterProperties.

(* ------------------------------------------------------------------ *)
(** ** Properties of the city options *)
(* ------------------------------------------------------------------ *)

Section CityOptions.
Import Py Pd App.

(** The answer of callback 1 is computed from the State and City columns. *)
Lemma set_cities_options_result (selected_states : option (list string)) (s : store) :
  result (set_cities_options selected_states) s
  = if negb (truthy selected_states) then inr []
    else match sorted (unique (select (isin (map State (df s)) (items selected_states))
                                      (map City (df s)))) with
         | inl e => inl e
         | inr cities => inr (map (fun i => {| label := i; value := i |}) cities)
         end.
Proof.
  unfold result, set_cities_options, bind, global_df, lift, ret, raise.
  destruct (negb (truthy selected_states)); [reflexivity|]. simpl.
  rewrite select_map_comm. destruct (sorted _); reflexivity.
Qed.

Lemma state_city_columns (d1 d2 : DataFrame) :
  map (fun r => (State r, City r)) d1 = map (fun r => (State r, City r)) d2 ->
  map State d1 = map State d2 /\ map City d1 = map City d2.
Proof.
  intros H.
  assert (Hfst : forall d, map State d = map fst (map (fun r => (State r, City r)) d))
    by (intros d; now rewrite map_map).
  assert (Hsnd : forall d, map City d = map snd (map (fun r => (State r, City r)) d))
    by (intros d; now rewrite map_map).
  rewrite (Hfst d1), (Hfst d2), (Hsnd d1), (Hsnd d2), H. split; reflexivity.
Qed.

(** C3. On the table left by start-up: with no state selected ([None] or
    [[]]) the city options are the empty list; with a non-empty selection the
    call returns one option per city, the cities being in ascending order,
    without duplicates, and exactly the city values of the rows of [df] whose
    state is selected.  The answer is a function of the State and City
    columns alone: another table with the same two columns gives the same
    options. *)
Theorem cascade_cities
        (parse : string -> option float) (fs : filesystem) (s : store) :
  module_body parse fs = Serving s ->
  result (set_cities_options None) s = inr []
  /\ result (set_cities_options (Some [])) s = inr []
  /\ forall selected_states : list string,
       selected_states <> [] ->
       exists cities : list string,
         result (set_cities_options (Some selected_states)) s
         = inr (map (fun c => {| label := Some c; value := Some c |}) cities)
         /\ ascending cities
         /\ NoDup cities
         /\ (forall c, In c cities <->
               exists r, In r (df s)
                         /\ City r = Some c
                         /\ exists st, State r = Some st /\ In st selected_states)
         /\ (forall s' : store,
               map (fun r => (State r, City r)) (df s')
               = map (fun r => (State r, City r)) (df s) ->
               result (set_cities_options (Some selected_states)) s'
               = result (set_cities_options (Some selected_states)) s).
Proof.
  intros Hrun. split; [reflexivity|]. split; [reflexivity|].
  intros selected_states Hne.
  set (chosen := fun r : Row =>
                   match State r with
                   | Some st => existsb (String.eqb st) selected_states
                   | None => false
                   end).
  assert (Hcol : select (isin (map State (df s)) selected_states) (map City (df s))
                 = map City (filter chosen (df s))).
  { rewrite <- select_map_comm, isin_map, select_map. reflexivity. }
  exists (sorted_str (dropna_cells (unique (map City (filter chosen (df s)))))).
  split; [|split; [|split; [|split]]].
  - rewrite set_cities_options_result.
    destruct selected_states as [|st0 rest]; [congruence|].
    cbn [truthy negb items]. rewrite Hcol.
    rewrite sorted_strings.
    + now rewrite map_map.
    + apply no_nan_existsb. rewrite unique_In, in_map_iff.
      intros [r [Hnone Hr]]. apply filter_In in Hr. destruct Hr as [Hr _].
      destruct (served_rows_valid parse fs s Hrun r Hr)
        as [_ [_ [_ [[c [Hc _]] _]]]].
      congruence.
  - apply sorted_str_ascending.
  - eapply Permutation_NoDup; [apply sorted_str_perm|].
    apply dropna_cells_NoDup, unique_NoDup.
  - intros c. split.
    + intros Hin.
      apply (Permutation_in _ (Permutation_sym (sorted_str_perm _))) in Hin.
      apply dropna_cells_In, unique_In, in_map_iff in Hin.
      destruct Hin as [r [Hcity Hr]]. apply filter_In in Hr.
      destruct Hr as [Hr Hsel]. exists r. repeat split; try assumption.
      unfold chosen in Hsel. destruct (State r) as [st|]; [|discriminate].
      exists st. split; [reflexivity | now apply existsb_eqb_In].
    + intros [r [Hr [Hcity [st [Hst Hsel]]]]].
      apply (Permutation_in _ (sorted_str_perm _)).
      apply dropna_cells_In, unique_In, in_map_iff.
      exists r. split; [assumption|]. apply filter_In. split; [assumption|].
      unfold chosen. rewrite Hst. now apply existsb_eqb_In.
  - intros s' Hsame. apply state_city_columns in Hsame.
    destruct Hsame as [Hst Hci].
    rewrite !set_cities_options_result. now rewrite Hst, Hci.
Qed.

Lemma cascade_cities_witness :
  module_body Sample.parse_decimal Sample.disk = Serving Sample.shop
  /\ result (set_cities_options None) Sample.shop = inr []
  /\ result (set_cities_options (Some [])) Sample.shop = inr []
  /\ exists cities : list string,
       result (set_cities_options (Some ["Maharashtra"])) Sample.shop
       = inr (map (fun c => {| label := Some c; value := Some c |}) cities)
       /\ ascending cities
       /\ NoDup cities
       /\ (forall c, In c cities <->
             exists r, In r (df Sample.shop)
                       /\ City r = Some c
                       /\ exists st, State r = Some st /\ In st ["Maharashtra"])
       /\ (forall s' : store,
             map (fun r => (State r, City r)) (df s')
             = map (fun r => (State r, City r)) (df Sample.shop) ->
             result (set_cities_options (Some ["Maharashtra"])) s'
             = result (set_cities_options (Some ["Maharashtra"])) Sample.shop).
Proof.
  split; [reflexivity|].
  destruct (cascade_cities Sample.parse_decimal Sample.disk Sample.shop)
    as [Hnone [Hempty Hsome]]; [reflexivity|].
  split; [exact Hnone|]. split; [exact Hempty|].
  apply Hsome. discriminate.
Defined.

(** The options of the specification's example: the cities of Maharashtra. *)
Example cities_of_Maharashtra :
  result (set_cities_options (Some ["Maharashtra"])) Sample.shop
  = inr [ {| label := Some "Mumbai"; value := Some "Mumbai" |};
          {| label := Some "Pune"; value := Some "Pune" |} ].
Proof. reflexivity. Qed.

End CityOptions.

(* ------------------------------------------------------------------ *)
(** ** The table left by start-up *)
(* ------------------------------------------------------------------ *)

Section LoadInvariant.
Import Py Pd App.

(** C4. When start-up succeeds, [df] holds, in file order, exactly those rows
    of the file (read and coerced) whose price and average rating are
    numbers (not NaN) and whose state, city and food type are non-empty
    strings; every other row of the file is left out. *)
Theorem load_invariant
        (parse : string -> option float) (fs : filesystem) (s : store) :
  module_body parse fs = Serving s ->
  exists records,
    fs csv_path = Csv records
    /\ Subseq (df s) (map (coerce parse) (map read_record records))
    /\ forall r, In r (df s) <->
         In r (map (coerce parse) (map read_record records)) /\ valid_row r.
Proof.
  intros Hrun.
  destruct (module_body_Serving parse fs s Hrun) as [records [Hfile Hdf]].
  exists records. split; [assumption|]. rewrite Hdf. split.
  - apply filter_Subseq.
  - intros r. rewrite dropna_rows. split; intros [Hin Hok]; split; try assumption.
    + rewrite map_map in Hin. apply in_map_iff in Hin.
      destruct Hin as [rec [<- _]]. now apply complete_valid.
    + rewrite map_map in Hin. apply in_map_iff in Hin.
      destruct Hin as [rec [<- _]]. now apply complete_valid.
Qed.

Lemma load_invariant_witness :
  exists records,
    Sample.disk csv_path = Csv records
    /\ Subseq (df Sample.shop)
              (map (coerce Sample.parse_decimal) (map read_record records))
    /\ forall r, In r (df Sample.shop) <->
         In r (map (coerce Sample.parse_decimal) (map read_record records))
         /\ valid_row r.
Proof.
  apply (load_invariant Sample.parse_decimal Sample.disk Sample.shop).
  reflexivity.
Defined.

(** One food type that is neither missing, nor a number, nor a boolean makes
    the column text. *)
Lemma column_kind_text
      (parse : string -> option float) (records : list CsvRecord) (rec : CsvRecord) :
  In rec records ->
  is_na_field (csv_Food_type rec) = false ->
  parse (csv_Food_type rec) = None ->
  ~ In (csv_Food_type rec) bool_texts ->
  column_kind_of parse (map raw_Food_type (map read_record records)) = TextColumn.
Proof.
  intros Hin Hna Hnum Hbool.
  assert (Hcell : In (Some (csv_Food_type rec))
                     (map raw_Food_type (map read_record records))).
  { rewrite map_map. apply in_map_iff. exists rec. split; [|assumption].
    simpl. unfold read_text. now rewrite Hna. }
  unfold column_kind_of.
  destruct (map raw_Food_type (map read_record records)) as [|c0 col] eqn:Hcol;
    [contradiction|].
  rewrite <- Hcol in *. clear Hcol.
  destruct (forallb _ _) eqn:Hall.
  - rewrite forallb_forall in Hall. specialize (Hall _ Hcell). simpl in Hall.
    rewrite Hnum in Hall. discriminate.
  - clear Hall. destruct (forallb _ _) eqn:Hall; [|reflexivity].
    rewrite forallb_forall in Hall. specialize (Hall _ Hcell).
    cbv beta iota in Hall.
    exfalso. apply Hbool. apply existsb_exists in Hall.
    destruct Hall as [b [Hb Heq]]. apply String.eqb_eq in Heq. now subst.
Qed.

(** A file with lines, none of which has a food type, gives a float64
    column. *)
Lemma column_kind_all_missing
      (parse : string -> option float) (records : list CsvRecord) :
  records <> [] ->
  (forall rec, In rec records -> is_na_field (csv_Food_type rec) = true) ->
  column_kind_of parse (map raw_Food_type (map read_record records)) = NumberColumn.
Proof.
  intros Hne Hall.
  assert (Hcells : forall c, In c (map raw_Food_type (map read_record records))
                             -> c = None).
  { intros c Hc. rewrite map_map in Hc. apply in_map_iff in Hc.
    destruct Hc as [rec [<- Hrec]]. simpl. unfold read_text.
    now rewrite (Hall rec Hrec). }
  unfold column_kind_of.
  destruct (map raw_Food_type (map read_record records)) as [|c0 col] eqn:Hcol.
  - destruct records; [congruence | discriminate].
  - rewrite <- Hcol in *. clear Hcol.
    replace (forallb _ _) with true; [reflexivity|].
    symmetry. apply forallb_forall. intros c Hc. now rewrite (Hcells c Hc).
Qed.

(** The example file: four of its seven lines are dropped. *)
Example example_startup :
  module_body Sample.parse_decimal Sample.disk = Serving Sample.shop.
Proof. reflexivity. Qed.

End LoadInvariant.

(* ------------------------------------------------------------------ *)
(** ** Properties of the chart data *)
(* ------------------------------------------------------------------ *)

Section ChartData.
Import Py Pd App.

(** C5. For every filtered table, the city counts of the bar chart and the
    cuisine counts of the pie chart have at most 10 entries each, and in each
    the counts never increase from one entry to a later one. *)
Theorem top_counts_bounded_descending (filtered_df : DataFrame) :
  length (city_counts filtered_df) <= 10
  /\ descending_by_count (city_counts filtered_df)
  /\ length (cuisine_counts filtered_df) <= 10
  /\ descending_by_count (cuisine_counts filtered_df).
Proof.
  unfold city_counts, cuisine_counts.
  repeat split; try apply nlargest_length; apply nlargest_descending.
Qed.

(** C6.  The aggregations on a table without rows give empty data: no bars,
    no slices, no points; and when the state filter leaves no row
    [update_graphs] returns three empty figures.  But when a cuisine is
    selected and the price range leaves no row, the filtered table is empty
    all the same and [update_graphs] raises [KeyError: 'City'] at line 150:
    the empty mask of line 145 has taken the columns away. *)
Theorem empty_view_after_cuisine_mask_raises :
  result (filtered_view None None (Some ["Pizza"]) (5000, 0)%float) Sample.shop
  = inr []
  /\ result (update_graphs None None (Some ["Pizza"]) (5000, 0)%float) Sample.shop
     = inl (KeyError "City")
  /\ result (filtered_view (Some ["Goa"]) None None (0, 1000)%float) Sample.shop
     = inr []
  /\ result (update_graphs (Some ["Goa"]) None None (0, 1000)%float) Sample.shop
     = inr {| bar_fig := []; pie_fig := []; scatter_fig := [] |}
  /\ city_counts [] = []
  /\ cuisine_counts [] = []
  /\ scatter_points [] = [].
Proof. repeat split. Qed.

(** The figures of the specification's example: Maharashtra, prices 0..1000. *)
Example figures_of_Maharashtra :
  option_map (fun f => (bar_fig f, pie_fig f))
    (match result (update_graphs (Some ["Maharashtra"]) None None (0, 1000)%float)
                  Sample.shop with
     | inr f => Some f
     | inl _ => None
     end)
  = Some ([("Pune", 1); ("Mumbai", 1)],
          [("Pizza", 1); ("Burger", 1); ("Biryani", 1)]).
Proof. reflexivity. Qed.

End ChartData.

(* ------------------------------------------------------------------ *)
(** ** Start-up failures *)
(* ------------------------------------------------------------------ *)

Section StartupFailure.
Import Py Pd App.

(** C8, as the program has it.  When the file is missing, the module body
    prints one message that names the file and calls [exit()]: nothing is
    served.  Any other failure of [read_csv] is not caught: the exception
    leaves the module body as it was raised, nothing is served either, and
    the program itself prints nothing.  The module body reads the file once,
    so there is no second attempt in either case. *)
Theorem startup_failure
        (parse : string -> option float) (fs : filesystem) :
  (fs csv_path = Missing ->
   module_body parse fs = Exited [not_found_message]
   /\ Substring csv_path not_found_message
   /\ started (module_body parse fs) = false)
  /\ (forall class message,
        fs csv_path = Unreadable class message ->
        module_body parse fs = Uncaught (ReadError class message)
        /\ printed (module_body parse fs) = []
        /\ started (module_body parse fs) = false).
Proof.
  split.
  - intros Hfile. unfold module_body, read_csv. rewrite Hfile.
    split; [reflexivity|]. split; [|reflexivity].
    apply contains_Substring. reflexivity.
  - intros class message Hfile. unfold module_body, read_csv. rewrite Hfile.
    repeat split.
Qed.

Lemma startup_failure_witness :
  (Sample.empty_disk csv_path = Missing
   /\ module_body Sample.parse_decimal Sample.empty_disk
      = Exited [not_found_message]
   /\ Substring csv_path not_found_message
   /\ started (module_body Sample.parse_decimal Sample.empty_disk) = false)
  /\ (Sample.garbled_disk csv_path
      = Unreadable "UnicodeDecodeError"
          "'utf-8' codec can't decode byte 0xff in position 0: invalid start byte"
      /\ module_body Sample.parse_decimal Sample.garbled_disk
         = Uncaught (ReadError "UnicodeDecodeError"
             "'utf-8' codec can't decode byte 0xff in position 0: invalid start byte")
      /\ printed (module_body Sample.parse_decimal Sample.garbled_disk) = []
      /\ started (module_body Sample.parse_decimal Sample.garbled_disk) = false).
Proof.
  split.
  - split; [reflexivity|].
    apply (startup_failure Sample.parse_decimal Sample.empty_disk).
    reflexivity.
  - split; [reflexivity|].
    apply (startup_failure Sample.parse_decimal Sample.garbled_disk).
    reflexivity.
Defined.

(** C8 as stated fails on a file that is there but cannot be decoded:
    start-up ends, but no line the user sees names the file. *)
Lemma unreadable_file_is_not_named :
  Sample.garbled_disk csv_path
  = Unreadable "UnicodeDecodeError"
      "'utf-8' codec can't decode byte 0xff in position 0: invalid start byte"
  /\ started (module_body Sample.parse_decimal Sample.garbled_disk) = false
  /\ printed (module_body Sample.parse_decimal Sample.garbled_disk) = []
  /\ ~ exists line,
         In line (diagnostics (module_body Sample.parse_decimal Sample.garbled_disk))
         /\ Substring csv_path line.
Proof.
  repeat split.
  intros [line [Hin Hsub]].
  apply contains_Substring in Hsub.
  destruct Hin as [<- | []].
  vm_compute in Hsub. discriminate.
Qed.

End StartupFailure.

(* ------------------------------------------------------------------ *)
(** ** The callbacks and the module state *)
(* ------------------------------------------------------------------ *)

Section Frame.
Import Py Pd App.

(** C9. Neither callback changes the module state: after a call of
    [set_cities_options] or of [update_graphs], with any inputs and whether
    the call returned or raised, the store, and so [df], is what it was. *)
Theorem callbacks_leave_df
        (s : store)
        (selected_states selected_cities selected_cuisines : option (list string))
        (price_range : float * float) :
  after (set_cities_options selected_states) s = s
  /\ df (after (set_cities_options selected_states) s) = df s
  /\ after (update_graphs selected_states selected_cities selected_cuisines
                          price_range) s = s
  /\ df (after (update_graphs selected_states selected_cities selected_cuisines
                              price_range) s) = df s.
Proof.
  rewrite set_cities_options_after, update_graphs_after. repeat split.
Qed.

(** C10. [update_graphs] has no memory: a call made after the same call, and
    after any further callbacks with any inputs, computes the same filtered
    table and returns the same three figures as the first one. *)
Theorem update_graphs_deterministic
        (s : store)
        (selected_states selected_cities selected_cuisines : option (list string))
        (price_range : float * float)
        (between : list event) :
  let later :=
    serve_all between
      (after (update_graphs selected_states selected_cities selected_cuisines
                            price_range) s) in
  result (filtered_view selected_states selected_cities selected_cuisines
                        price_range) later
  = result (filtered_view selected_states selected_cities selected_cuisines
                          price_range) s
  /\ result (update_graphs selected_states selected_cities selected_cuisines
                           price_range) later
     = result (update_graphs selected_states selected_cities selected_cuisines
                             price_range) s.
Proof.
  intros later. unfold later.
  rewrite serve_all_same, update_graphs_after. split; reflexivity.
Qed.

End Frame.

(* ------------------------------------------------------------------ *)
(** ** The order of binary64 numbers *)
(* ------------------------------------------------------------------ *)

Section FloatOrder.
Import Pd.

Lemma SFleb_trans (a b c : spec_float) :
  SFleb a b = true -> SFleb b c = true -> SFleb a c = true.
Proof.
  unfold SFleb, SFcompare.
  destruct a as [sa|sa| |sa ma ea], b as [sb|sb| |sb mb eb], c as [sc|sc| |sc mc ec];
    try destruct sa; try destruct sb; try destruct sc;
    try reflexivity; try discriminate;
    intros Hab Hbc;
    repeat match goal with
    | H : context [Z.compare ?u ?v] |- _ =>
        destruct (Z.compare_spec u v); try discriminate
    | |- context [Z.compare ?u ?v] =>
        destruct (Z.compare_spec u v)
    end; subst; try lia; try reflexivity;
    change (Pos.compare_cont Eq) with Pos.compare in *;
    repeat match goal with
    | H : context [Pos.compare ?u ?v] |- _ =>
        destruct (Pos.compare_spec u v); try discriminate
    | |- context [Pos.compare ?u ?v] =>
        destruct (Pos.compare_spec u v)
    end; subst; simpl in *; try lia; try reflexivity; try discriminate.
Qed.

Lemma SFcompare_refl (a : spec_float) :
  a <> S754_nan -> SFcompare a a = Some Eq.
Proof.
  destruct a as [s|s| |s m e]; try congruence; intros _; simpl.
  - reflexivity.
  - now destruct s.
  - rewrite Z.compare_refl. change (Pos.compare_cont Eq) with Pos.compare.
    rewrite Pos.compare_refl. now destruct s.
Qed.

Lemma SFcompare_antisym (a b : spec_float) :
  a <> S754_nan -> b <> S754_nan ->
  exists c, SFcompare a b = Some c /\ SFcompare b a = Some (CompOpp c).
Proof.
  unfold SFcompare.
  destruct a as [sa|sa| |sa ma ea], b as [sb|sb| |sb mb eb];
    try destruct sa; try destruct sb; intros Ha Hb; try congruence;
    try (eexists; split; reflexivity);
    rewrite (Z.compare_antisym ea eb);
    change (Pos.compare_cont Eq) with Pos.compare;
    rewrite (Pos.compare_antisym ma mb);
    destruct (Z.compare ea eb), (Pos.compare ma mb); simpl;
    eexists; split; reflexivity.
Qed.

Lemma is_nan_false (v : float) : is_nan v = false <-> Prim2SF v <> S754_nan.
Proof.
  unfold is_nan. rewrite negb_false_iff, eqb_spec. unfold SFeqb. split.
  - intros H Hn. rewrite Hn in H. discriminate.
  - intros H. now rewrite SFcompare_refl.
Qed.

Lemma float_leb_refl (v : float) : is_nan v = false -> PrimFloat.leb v v = true.
Proof.
  intros Hv. apply is_nan_false in Hv.
  rewrite leb_spec. unfold SFleb. now rewrite SFcompare_refl.
Qed.

Lemma float_leb_trans (u v w : float) :
  PrimFloat.leb u v = true -> PrimFloat.leb v w = true -> PrimFloat.leb u w = true.
Proof. rewrite !leb_spec. apply SFleb_trans. Qed.

Lemma float_ltb_leb (u v : float) :
  PrimFloat.ltb u v = true -> PrimFloat.leb u v = true.
Proof.
  rewrite ltb_spec, leb_spec. unfold SFltb, SFleb.
  destruct (SFcompare _ _) as [[| |]|]; congruence.
Qed.

Lemma float_not_ltb_leb (u v : float) :
  is_nan u = false -> is_nan v = false ->
  PrimFloat.ltb u v = false -> PrimFloat.leb v u = true.
Proof.
  intros Hu Hv. apply is_nan_false in Hu, Hv.
  rewrite ltb_spec, leb_spec. unfold SFltb, SFleb.
  destruct (SFcompare_antisym _ _ Hu Hv) as [c [-> ->]].
  destruct c; simpl; congruence.
Qed.

(** A comparison with NaN is false on either side. *)
Lemma float_leb_nan (u v : float) :
  is_nan u = true \/ is_nan v = true -> PrimFloat.leb u v = false.
Proof.
  intros H. rewrite leb_spec. unfold SFleb.
  assert (Hn : Prim2SF u = S754_nan \/ Prim2SF v = S754_nan).
  { destruct H as [H|H]; [left|right];
      (destruct (Prim2SF _) eqn:E; try reflexivity;
       assert (Hx : is_nan _ = false)
         by (apply is_nan_false; rewrite E; discriminate);
       congruence). }
  destruct Hn as [-> | ->]; [reflexivity|].
  now destruct (Prim2SF u).
Qed.

Lemma least_spec (rest : list float) (m : float) :
  is_nan m = false -> Forall (fun v => is_nan v = false) rest ->
  is_nan (least m rest) = false
  /\ In (least m rest) (m :: rest)
  /\ forall v, In v (m :: rest) -> PrimFloat.leb (least m rest) v = true.
Proof.
  revert m. induction rest as [|w rest IH]; intros m Hm Hrest; simpl.
  - split; [assumption|]. split; [now left|].
    intros v [<- | []]. now apply float_leb_refl.
  - inversion Hrest as [|? ? Hw Hrest']; subst.
    destruct (PrimFloat.ltb w m) eqn:Hlt.
    + destruct (IH w Hw Hrest') as [Hnan [Hin Hle]].
      split; [assumption|]. split.
      * destruct Hin as [Hin | Hin]; [right; now left | right; now right].
      * intros v [<- | [<- | Hv]].
        -- apply float_leb_trans with w; [apply Hle; now left|].
           now apply float_ltb_leb.
        -- apply Hle. now left.
        -- apply Hle. now right.
    + destruct (IH m Hm Hrest') as [Hnan [Hin Hle]].
      split; [assumption|]. split.
      * destruct Hin as [Hin | Hin]; [now left | right; now right].
      * intros v [<- | [<- | Hv]].
        -- apply Hle. now left.
        -- apply float_leb_trans with m; [apply Hle; now left|].
           now apply float_not_ltb_leb.
        -- apply Hle. now right.
Qed.

Lemma greatest_spec (rest : list float) (m : float) :
  is_nan m = false -> Forall (fun v => is_nan v = false) rest ->
  is_nan (greatest m rest) = false
  /\ In (greatest m rest) (m :: rest)
  /\ forall v, In v (m :: rest) -> PrimFloat.leb v (greatest m rest) = true.
Proof.
  revert m. induction rest as [|w rest IH]; intros m Hm Hrest; simpl.
  - split; [assumption|]. split; [now left|].
    intros v [<- | []]. now apply float_leb_refl.
  - inversion Hrest as [|? ? Hw Hrest']; subst.
    destruct (PrimFloat.ltb m w) eqn:Hlt.
    + destruct (IH w Hw Hrest') as [Hnan [Hin Hle]].
      split; [assumption|]. split.
      * destruct Hin as [Hin | Hin]; [right; now left | right; now right].
      * intros v [<- | [<- | Hv]].
        -- apply float_leb_trans with w; [|apply Hle; now left].
           now apply float_ltb_leb.
        -- apply Hle. now left.
        -- apply Hle. now right.
    + destruct (IH m Hm Hrest') as [Hnan [Hin Hle]].
      split; [assumption|]. split.
      * destruct Hin as [Hin | Hin]; [now left | right; now right].
      * intros v [<- | [<- | Hv]].
        -- apply Hle. now left.
        -- apply float_leb_trans with m; [|apply Hle; now left].
           now apply float_not_ltb_leb.
        -- apply Hle. now right.
Qed.

Lemma dropna_floats_numbers (col : list float) :
  Forall (fun v => is_nan v = false) col -> dropna_floats col = col.
Proof.
  unfold dropna_floats. induction 1 as [|v col Hv _ IH]; simpl; [reflexivity|].
  now rewrite Hv, IH.
Qed.

(** On a column of numbers, [min] and [max] are members that bound every
    member. *)
Lemma series_min_max_bound (col : list float) (v : float) :
  Forall (fun w => is_nan w = false) col -> In v col ->
  PrimFloat.leb (series_min col) v = true
  /\ PrimFloat.leb v (series_max col) = true
  /\ In (series_min col) col /\ In (series_max col) col.
Proof.
  intros Hcol Hv. unfold series_min, series_max.
  rewrite (dropna_floats_numbers col Hcol).
  destruct col as [|m rest]; [contradiction|].
  inversion Hcol as [|? ? Hm Hrest]; subst.
  destruct (least_spec rest m Hm Hrest) as [_ [Hin1 Hle1]].
  destruct (greatest_spec rest m Hm Hrest) as [_ [Hin2 Hle2]].
  repeat split; auto.
Qed.

End FloatOrder.

(* ------------------------------------------------------------------ *)
(** ** Cuisine tokens and substrings *)
(* ------------------------------------------------------------------ *)

Section TokenFacts.
Import Py Pd App.

Lemma Substring_refl (s : string) : Substring s s.
Proof. exists "", "". simpl. now rewrite string_app_empty. Qed.

Lemma Substring_trans (a b c : string) :
  Substring a b -> Substring b c -> Substring a c.
Proof.
  intros [p [q ->]] [p' [q' ->]].
  exists (p' ++ p)%string, (q ++ q')%string.
  now rewrite !string_app_assoc.
Qed.

Lemma lstrip_suffix_upto (n : nat) :
  forall s, String.length s <= n -> exists a, s = (a ++ lstrip s)%string.
Proof.
  induction n as [|n IH]; intros s Hlen.
  - destruct s; [now exists "" | simpl in Hlen; lia].
  - destruct s as [|c s1]; [now exists ""|].
    simpl in Hlen. cbn [lstrip].
    destruct (isspace c).
    { destruct (IH s1) as [a Ha]; [lia|].
      exists (String c a). simpl. now rewrite <- Ha. }
    destruct s1 as [|d s2]; [now exists ""|].
    simpl in Hlen. destruct (isspace2 c d).
    { destruct (IH s2) as [a Ha]; [lia|].
      exists (String c (String d a)). simpl. now rewrite <- Ha. }
    destruct s2 as [|e s3]; [now exists ""|].
    simpl in Hlen. destruct (isspace3 c d e); [|now exists ""].
    destruct (IH s3) as [a Ha]; [lia|].
    exists (String c (String d (String e a))). simpl. now rewrite <- Ha.
Qed.

Lemma lstrip_suffix (s : string) : exists a, s = (a ++ lstrip s)%string.
Proof. now apply (lstrip_suffix_upto (String.length s)). Qed.

Lemma rstrip_prefix (s : string) : exists b, s = (rstrip s ++ b)%string.
Proof.
  induction s as [|c s [b IH]]; [now exists ""|].
  cbn [rstrip]. destruct (all_space (String c s)).
  - now exists (String c s).
  - exists b. simpl. now rewrite <- IH.
Qed.

Lemma strip_Substring (s : string) : Substring (strip s) s.
Proof.
  unfold strip. destruct (lstrip_suffix s) as [a Ha].
  destruct (rstrip_prefix (lstrip s)) as [b Hb].
  exists a, b. now rewrite <- Hb.
Qed.

Lemma In_join_Substring (sep piece : string) (l : list string) :
  In piece l -> Substring piece (join sep l).
Proof.
  induction l as [|y l IH]; [contradiction|].
  intros Hin. destruct l as [|z l].
  - destruct Hin as [<- | []]. apply Substring_refl.
  - rewrite join_cons by discriminate.
    destruct Hin as [<- | Hin].
    + now exists "", (sep ++ join sep (z :: l))%string.
    + destruct (IH Hin) as [p [q Hpq]]. rewrite Hpq.
      exists (y ++ sep ++ p)%string, q. now rewrite !string_app_assoc.
Qed.

(** Every piece of a split is a block of the text that was split. *)
Lemma split_piece_Substring (sep s piece : string) :
  sep <> "" -> In piece (split sep s) -> Substring piece s.
Proof.
  intros Hsep Hin. rewrite <- (split_join sep s Hsep) at 1.
  now apply In_join_Substring.
Qed.

Lemma lists_Substring (food_type token : string) :
  lists food_type token -> Substring token food_type.
Proof.
  intros [piece [Hin ->]].
  apply Substring_trans with piece; [apply strip_Substring|].
  apply (split_piece_Substring ", "); [discriminate | assumption].
Qed.

(** The tokens of a table are the cuisines its food types list. *)
Lemma cuisine_tokens_In (rows : DataFrame) (token : string) :
  In (Some token) (cuisine_tokens rows) <->
  exists r f, In r rows /\ Food_type r = Some f /\ lists f token.
Proof.
  unfold cuisine_tokens, str_strip, explode, str_split, lists.
  rewrite in_map_iff. split.
  - intros [tok [Hstrip Hin]].
    apply in_flat_map in Hin. destruct Hin as [pieces [Hpieces Hin]].
    rewrite map_map in Hpieces. apply in_map_iff in Hpieces.
    destruct Hpieces as [r [Hr Hrin]].
    destruct (Food_type r) as [f|] eqn:Hf; simpl in Hr; subst pieces.
    + exists r, f. split; [assumption|]. split; [exact Hf|].
      destruct (split ", " f) as [|p ps] eqn:Hsplit.
      * destruct Hin as [<- | []]. discriminate.
      * apply in_map_iff in Hin. destruct Hin as [piece [<- Hpiece]].
        exists piece. split; [assumption|]. simpl in Hstrip. congruence.
    + destruct Hin as [<- | []]. discriminate.
  - intros [r [f [Hr [Hf [piece [Hpiece ->]]]]]].
    exists (Some piece). split; [reflexivity|].
    apply in_flat_map. exists (Some (split ", " f)). split.
    + rewrite map_map. apply in_map_iff. exists r. now rewrite Hf.
    + destruct (split ", " f) as [|p ps]; [contradiction|].
      now apply in_map.
Qed.

Lemma tokens_of_part (view rows : DataFrame) (token : string) :
  (forall r, In r view -> In r rows) ->
  In (Some token) (cuisine_tokens view) -> In (Some token) (cuisine_tokens rows).
Proof.
  intros Hpart. rewrite !cuisine_tokens_In.
  intros [r [f [Hr H]]]. exists r, f. split; [now apply Hpart | assumption].
Qed.

(** The vocabulary a served store holds. *)
Lemma served_vocabulary (parse : string -> option float) (fs : filesystem) (s : store) :
  module_body parse fs = Serving s ->
  all_cuisines s
  = map Some (sorted_str (dropna_cells (unique (cuisine_tokens (df s))))).
Proof.
  intros Hrun.
  destruct (module_body_Serving parse fs s Hrun) as [records [Hfile Hdf]].
  rewrite (module_body_Csv_outcome parse fs records Hfile) in Hrun.
  destruct (str_accessor _ _); [|discriminate].
  injection Hrun as <-. reflexivity.
Qed.

Lemma served_vocabulary_In (parse : string -> option float) (fs : filesystem)
      (s : store) (token : string) :
  module_body parse fs = Serving s ->
  In (Some token) (all_cuisines s) <-> In (Some token) (cuisine_tokens (df s)).
Proof.
  intros Hrun. rewrite (served_vocabulary parse fs s Hrun).
  transitivity (In token (dropna_cells (unique (cuisine_tokens (df s))))).
  - split.
    + intros Hin. apply in_map_iff in Hin. destruct Hin as [t [Ht Hin]].
      injection Ht as ->.
      now apply (Permutation_in _ (Permutation_sym (sorted_str_perm _))).
    + intros Hin. apply in_map.
      now apply (Permutation_in _ (sorted_str_perm _)).
  - now rewrite dropna_cells_In, unique_In.
Qed.

End TokenFacts.

(* ------------------------------------------------------------------ *)
(** ** Further properties: cuisines *)
(* ------------------------------------------------------------------ *)

Section CuisineProperties.
Import Py Pd App.

Lemma nlargest_In (n : nat) (counts : list (string * nat)) (e : string * nat) :
  In e (nlargest n counts) -> In e counts.
Proof.
  unfold nlargest. intros Hin.
  apply (Permutation_in _ (Permutation_sym (sort_desc_perm counts))).
  rewrite <- (firstn_skipn n (sort_desc counts)). apply in_or_app. now left.
Qed.

(** On a served store [update_graphs] either returns the figures of the
    filtered table, which is part of [df], or raises [KeyError: 'City'];
    it raises only when a cuisine is selected and the filtered table is
    empty. *)
Lemma update_graphs_outcome
      (parse : string -> option float) (fs : filesystem) (s : store)
      (selected_states selected_cities selected_cuisines : option (list string))
      (price_range : float * float) :
  module_body parse fs = Serving s ->
  exists view,
    result (filtered_view selected_states selected_cities selected_cuisines
                          price_range) s = inr view
    /\ Subseq view (df s)
    /\ (forall r, In r view -> valid_row r)
    /\ (result (update_graphs selected_states selected_cities selected_cuisines
                              price_range) s = inr (build_figures view)
        \/ (result (update_graphs selected_states selected_cities
                                  selected_cuisines price_range) s
            = inl (KeyError "City")
            /\ view = [] /\ items selected_cuisines <> []))
    /\ (items selected_cuisines = [] \/ view <> [] ->
        result (update_graphs selected_states selected_cities selected_cuisines
                              price_range) s = inr (build_figures view)).
Proof.
  intros Hrun.
  assert (Hfood : forall r, In r (df s) -> exists f, Food_type r = Some f).
  { intros r Hr.
    destruct (served_rows_valid parse fs s Hrun r Hr) as [_ [_ [_ [_ [f [Hf _]]]]]].
    now exists f. }
  destruct (filtered_view_rows selected_states selected_cities selected_cuisines
              price_range s Hfood) as [view0 [Heq0 [Hsub _]]].
  destruct (filtered_frame_rows selected_states selected_cities selected_cuisines
              price_range s Hfood) as [view [flag [Heq [Hframe [Hempty Hflag]]]]].
  rewrite Heq in Heq0. injection Heq0 as <-.
  exists view. unfold result, update_graphs, bind. rewrite Heq, Hframe.
  cbn [fst rows has_columns].
  split; [reflexivity|]. split; [assumption|]. split.
  { intros r Hr. apply (served_rows_valid parse fs s Hrun).
    now apply (Subseq_In _ _ _ Hsub). }
  destruct flag; cbn [fst ret raise].
  - split; [now left | reflexivity].
  - split.
    + right. split; [reflexivity|]. split; [now apply Hempty|].
      now apply (proj1 Hflag).
    + intros [Hnone | Hrows].
      * exfalso. now apply (proj1 (proj1 Hflag eq_refl)).
      * exfalso. apply Hrows. now apply Hempty.
Qed.

(** X1. After start-up [all_cuisines] is a list of strings in ascending
    order without duplicates, and a string is in it exactly when some row of
    [df] lists it: it is a piece of that row's food type between [", "]
    separators, white space trimmed. *)
Theorem vocabulary_sorted_distinct
        (parse : string -> option float) (fs : filesystem) (s : store) :
  module_body parse fs = Serving s ->
  exists vocabulary : list string,
    all_cuisines s = map Some vocabulary
    /\ ascending vocabulary
    /\ NoDup vocabulary
    /\ forall token, In token vocabulary <->
         exists r f, In r (df s) /\ Food_type r = Some f /\ lists f token.
Proof.
  intros Hrun.
  exists (sorted_str (dropna_cells (unique (cuisine_tokens (df s))))).
  split; [now apply (served_vocabulary parse fs)|].
  split; [apply sorted_str_ascending|].
  split.
  - eapply Permutation_NoDup; [apply sorted_str_perm|].
    apply dropna_cells_NoDup, unique_NoDup.
  - intros token. rewrite <- cuisine_tokens_In.
    rewrite <- (unique_In (Some token)), <- dropna_cells_In.
    split; intros Hin.
    + now apply (Permutation_in _ (Permutation_sym (sorted_str_perm _))).
    + now apply (Permutation_in _ (sorted_str_perm _)).
Qed.

Lemma vocabulary_sorted_distinct_witness :
  exists vocabulary : list string,
    all_cuisines Sample.shop = map Some vocabulary
    /\ ascending vocabulary
    /\ NoDup vocabulary
    /\ forall token, In token vocabulary <->
         exists r f, In r (df Sample.shop) /\ Food_type r = Some f /\ lists f token.
Proof.
  apply (vocabulary_sorted_distinct Sample.parse_decimal Sample.disk Sample.shop).
  reflexivity.
Defined.

(** X2. The cuisine filter never misses a restaurant that lists a selected
    cuisine: a row of [df] whose food type lists one of the selected
    cuisines, whose price is in the range and which passes the state and
    city tests is in the filtered table. *)
Theorem cuisine_filter_finds_listed
        (parse : string -> option float) (fs : filesystem) (s : store)
        (selected_states selected_cities selected_cuisines : option (list string))
        (price_range : float * float) (r : Row) (f token : string) :
  module_body parse fs = Serving s ->
  In r (df s) ->
  Food_type r = Some f ->
  lists f token ->
  In token (items selected_cuisines) ->
  in_price_range price_range (Price r) ->
  (items selected_states = []
   \/ exists st, State r = Some st /\ In st (items selected_states)) ->
  (items selected_cities = []
   \/ exists c, City r = Some c /\ In c (items selected_cities)) ->
  exists view,
    result (filtered_view selected_states selected_cities selected_cuisines
                          price_range) s = inr view
    /\ In r view.
Proof.
  intros Hrun Hr Hf Hlists Htoken Hprice Hstate Hcity.
  destruct (filtered_view_rows selected_states selected_cities selected_cuisines
              price_range s) as [view [Heq [_ [_ Hrows]]]].
  - intros r' Hr'.
    destruct (served_rows_valid parse fs s Hrun r' Hr') as [_ [_ [_ [_ [f' [Hf' _]]]]]].
    now exists f'.
  - exists view. unfold result. rewrite Heq. split; [reflexivity|].
    apply Hrows.
    + right. right. intros Hempty. rewrite Hempty in Htoken. contradiction.
    + repeat split; try assumption; try apply Hprice.
      right. exists token, f. repeat split; try assumption.
      now apply lists_Substring.
Qed.

Lemma cuisine_filter_finds_listed_witness :
  exists view,
    result (filtered_view None None (Some ["Burger"]) (0, 1000)%float) Sample.shop
    = inr view
    /\ In (nth 0 Sample.base
               (mkRow None None None 0%float 0%float None)) view.
Proof.
  apply (cuisine_filter_finds_listed Sample.parse_decimal Sample.disk Sample.shop
           None None (Some ["Burger"]) (0, 1000)%float _ "Pizza, Burger" "Burger").
  - reflexivity.
  - now left.
  - reflexivity.
  - exists "Burger". split; [right; now left | reflexivity].
  - now left.
  - split; reflexivity.
  - now left.
  - now left.
Defined.

(** X3. Every cuisine the dropdown offers matches at least one restaurant
    under the filter's own test: some row of [df] has a food type that
    contains it as a substring. *)
Theorem cuisine_option_matches_some_row
        (parse : string -> option float) (fs : filesystem) (s : store)
        (token : string) :
  module_body parse fs = Serving s ->
  In (Some token) (all_cuisines s) ->
  exists r f, In r (df s) /\ Food_type r = Some f /\ Substring token f.
Proof.
  intros Hrun Hin.
  apply (served_vocabulary_In parse fs s token Hrun) in Hin.
  apply cuisine_tokens_In in Hin. destruct Hin as [r [f [Hr [Hf Hlists]]]].
  exists r, f. repeat split; try assumption. now apply lists_Substring.
Qed.

Lemma cuisine_option_matches_some_row_witness :
  exists r f, In r (df Sample.shop) /\ Food_type r = Some f /\ Substring "Burger" f.
Proof.
  apply (cuisine_option_matches_some_row Sample.parse_decimal Sample.disk
           Sample.shop "Burger").
  - reflexivity.
  - right. now left.
Defined.

(** X4. On a served store every slice of the pie chart that [update_graphs]
    returns is named after a cuisine of [all_cuisines].  The call returns
    whenever no cuisine is selected or the filtered table has a row. *)
Theorem pie_names_in_vocabulary
        (parse : string -> option float) (fs : filesystem) (s : store)
        (selected_states selected_cities selected_cuisines : option (list string))
        (price_range : float * float) :
  module_body parse fs = Serving s ->
  exists view,
    result (filtered_view selected_states selected_cities selected_cuisines
                          price_range) s = inr view
    /\ (forall figs,
          result (update_graphs selected_states selected_cities selected_cuisines
                                price_range) s = inr figs ->
          forall name n, In (name, n) (pie_fig figs) ->
                         In (Some name) (all_cuisines s))
    /\ (items selected_cuisines = [] \/ view <> [] ->
        exists figs,
          result (update_graphs selected_states selected_cities selected_cuisines
                                price_range) s = inr figs).
Proof.
  intros Hrun.
  destruct (update_graphs_outcome parse fs s selected_states selected_cities
              selected_cuisines price_range Hrun)
    as [view [Hview [Hsub [_ [Hcases Hreturns]]]]].
  exists view. split; [assumption|]. split.
  - intros figs Hfigs name n Hin.
    destruct Hcases as [Hok | [Hraise _]]; [|congruence].
    rewrite Hok in Hfigs. injection Hfigs as <-.
    simpl in Hin. unfold cuisine_counts in Hin.
    apply nlargest_In, value_counts_In in Hin. destruct Hin as [Hin _].
    apply (served_vocabulary_In parse fs s name Hrun).
    apply (tokens_of_part view); [|exact Hin].
    intros r Hr. now apply (Subseq_In _ _ _ Hsub).
  - intros Hcond. eexists. now apply Hreturns.
Qed.

Lemma pie_names_in_vocabulary_witness :
  exists view,
    result (filtered_view (Some ["Maharashtra"]) None None (0, 1000)%float)
           Sample.shop = inr view
    /\ (forall figs,
          result (update_graphs (Some ["Maharashtra"]) None None (0, 1000)%float)
                 Sample.shop = inr figs ->
          forall name n, In (name, n) (pie_fig figs) ->
                         In (Some name) (all_cuisines Sample.shop))
    /\ (items (@None (list string)) = [] \/ view <> [] ->
        exists figs,
          result (update_graphs (Some ["Maharashtra"]) None None (0, 1000)%float)
                 Sample.shop = inr figs).
Proof.
  apply (pie_names_in_vocabulary Sample.parse_decimal Sample.disk Sample.shop).
  reflexivity.
Defined.

End CuisineProperties.

(* ------------------------------------------------------------------ *)
(** ** Further properties: the counts behind the bar and pie charts *)
(* ------------------------------------------------------------------ *)

Section CountProperties.
Import Py Pd App.

Lemma count_map (column : Row -> cell) (v : string) (rows : DataFrame) :
  count v (map column rows) = rows_with column v rows.
Proof.
  unfold count, rows_with.
  induction rows as [|r rows IH]; cbn [map filter]; [reflexivity|].
  destruct (cell_eqb (Some v) (column r)); cbn [length]; now rewrite IH.
Qed.

Lemma count_positive (v : string) (col : list cell) :
  In (Some v) col -> 1 <= count v col.
Proof.
  unfold count. induction col as [|c col IH]; [contradiction|].
  intros [Heq | Hin]; cbn [filter].
  - subst c. replace (cell_eqb (Some v) (Some v)) with true
      by (symmetry; apply String.eqb_refl).
    cbn [length]. lia.
  - destruct (cell_eqb (Some v) c); cbn [length]; [lia | now apply IH].
Qed.

Lemma NoDup_firstn {A : Type} (n : nat) (l : list A) :
  NoDup l -> NoDup (firstn n l).
Proof.
  intros Hl; revert n. induction Hl as [|a l Hnin _ IH]; intros [|n]; simpl;
    try constructor.
  - intros Hin. apply Hnin.
    rewrite <- (firstn_skipn n l). apply in_or_app. now left.
  - apply IH.
Qed.

(** What the ten entries kept by [value_counts().nlargest(10)] are. *)
Lemma top_counts_spec (col : list cell) :
  (forall v n, In (v, n) (nlargest 10 (value_counts col)) ->
               n = count v col /\ 1 <= n)
  /\ NoDup (map fst (nlargest 10 (value_counts col)))
  /\ (forall v, In (Some v) col ->
        In (v, count v col) (nlargest 10 (value_counts col))
        \/ forall e, In e (nlargest 10 (value_counts col)) -> count v col <= snd e).
Proof.
  split; [|split].
  - intros v n Hin. apply nlargest_In, value_counts_In in Hin.
    destruct Hin as [Hin ->]. split; [reflexivity | now apply count_positive].
  - unfold nlargest. rewrite <- firstn_map. apply NoDup_firstn.
    eapply Permutation_NoDup;
      [apply Permutation_map, sort_desc_perm | apply value_counts_keys_NoDup].
  - intros v Hv.
    assert (Hall : In (v, count v col) (sort_desc (value_counts col))).
    { apply (Permutation_in _ (sort_desc_perm _)). now apply value_counts_In. }
    rewrite <- (firstn_skipn 10 (sort_desc (value_counts col))) in Hall.
    apply in_app_or in Hall. destruct Hall as [Hkept | Hleft].
    + now left.
    + right. intros e He.
      apply (nlargest_top 10 (value_counts col) e (v, count v col) He Hleft).
Qed.

(** X5. In the bar chart every bar carries the number of rows of the
    filtered table that have its city, which is at least 1; no city has two
    bars; and a city of the filtered table that has no bar has no more rows
    than any city that has one. *)
Theorem bar_counts_are_row_counts (filtered_df : DataFrame) :
  (forall city n, In (city, n) (city_counts filtered_df) ->
                  n = rows_with City city filtered_df /\ 1 <= n)
  /\ NoDup (map fst (city_counts filtered_df))
  /\ (forall r city, In r filtered_df -> City r = Some city ->
        In (city, rows_with City city filtered_df) (city_counts filtered_df)
        \/ forall bar, In bar (city_counts filtered_df) ->
                       rows_with City city filtered_df <= snd bar).
Proof.
  unfold city_counts.
  destruct (top_counts_spec (map City filtered_df)) as [Hcount [Hkeys Htop]].
  split; [|split].
  - intros city n Hin. rewrite <- count_map. now apply Hcount.
  - assumption.
  - intros r city Hr Hcity. rewrite <- count_map. apply Htop.
    rewrite <- Hcity. now apply in_map.
Qed.

(** X6. In the pie chart every slice carries the number of times its cuisine
    is listed by the rows of the filtered table (a row listing it twice
    counts twice), which is at least 1; no cuisine has two slices; and a
    listed cuisine without a slice is listed no more often than any cuisine
    that has one. *)
Theorem pie_counts_are_token_counts (filtered_df : DataFrame) :
  (forall cuisine n, In (cuisine, n) (cuisine_counts filtered_df) ->
                     n = count cuisine (cuisine_tokens filtered_df) /\ 1 <= n)
  /\ NoDup (map fst (cuisine_counts filtered_df))
  /\ (forall r f cuisine, In r filtered_df -> Food_type r = Some f ->
        lists f cuisine ->
        In (cuisine, count cuisine (cuisine_tokens filtered_df))
           (cuisine_counts filtered_df)
        \/ forall slice, In slice (cuisine_counts filtered_df) ->
                         count cuisine (cuisine_tokens filtered_df) <= snd slice).
Proof.
  unfold cuisine_counts.
  change (str_strip (explode (str_split ", " (map Food_type filtered_df))))
    with (cuisine_tokens filtered_df).
  destruct (top_counts_spec (cuisine_tokens filtered_df)) as [Hcount [Hkeys Htop]].
  split; [|split]; try assumption.
  intros r f cuisine Hr Hf Hlists. apply Htop.
  apply cuisine_tokens_In. now exists r, f.
Qed.

Lemma total_perm (l l' : list (string * nat)) :
  Permutation l l' -> total l = total l'.
Proof.
  unfold total. induction 1; simpl; lia.
Qed.

Lemma count_cons_str (v a : string) (col : list cell) :
  count v (Some a :: col) = (if String.eqb v a then 1 else 0) + count v col.
Proof. unfold count. simpl. now destruct (String.eqb v a). Qed.

Lemma count_cons_nan (v : string) (col : list cell) :
  count v (None :: col) = count v col.
Proof. reflexivity. Qed.

Lemma sum_indicator (a : string) (keys : list string) :
  NoDup keys -> In a keys ->
  list_sum (map (fun v => if String.eqb v a then 1 else 0) keys) = 1.
Proof.
  induction 1 as [|k keys Hnin Hnd IH]; [contradiction|].
  intros [-> | Hin]; simpl.
  - rewrite String.eqb_refl.
    assert (Hzero : list_sum (map (fun v => if String.eqb v a then 1 else 0) keys) = 0).
    { clear IH Hnd. induction keys as [|k keys IHk]; simpl; [reflexivity|].
      destruct (String.eqb_spec k a) as [->|_].
      - exfalso. apply Hnin. now left.
      - apply IHk. intros H. apply Hnin. now right. }
    lia.
  - destruct (String.eqb_spec k a) as [->|_]; [contradiction|].
    now rewrite IH.
Qed.

(** The counts of distinct keys that cover a column add up to the number of
    its strings. *)
Lemma sum_counts (keys : list string) (col : list cell) :
  NoDup keys -> (forall a, In (Some a) col -> In a keys) ->
  list_sum (map (fun v => count v col) keys) = length (dropna_cells col).
Proof.
  intros Hnd. induction col as [|[a|] col IH]; intros Hcover.
  - clear. induction keys as [|k keys IHk]; simpl; [reflexivity | exact IHk].
  - simpl dropna_cells. simpl length.
    rewrite <- IH by (intros b Hb; apply Hcover; now right).
    change (S ?n) with (1 + n).
    rewrite <- (sum_indicator a keys Hnd) by (apply Hcover; now left).
    clear. induction keys as [|k keys IHk]; simpl; [reflexivity|].
    rewrite count_cons_str. simpl in IHk. lia.
  - simpl dropna_cells.
    rewrite <- IH by (intros b Hb; apply Hcover; now right).
    apply f_equal, map_ext. intros v. apply count_cons_nan.
Qed.

Lemma total_value_counts (col : list cell) :
  total (value_counts col) = length (dropna_cells col).
Proof.
  unfold value_counts.
  rewrite <- (total_perm _ _ (sort_desc_perm _)).
  unfold total. rewrite map_map. simpl.
  apply sum_counts.
  - apply dropna_cells_NoDup, unique_NoDup.
  - intros a Ha. now rewrite dropna_cells_In, unique_In.
Qed.

Lemma dropna_cells_all (col : list cell) :
  ~ In None col -> length (dropna_cells col) = length col.
Proof.
  induction col as [|[a|] col IH]; intros Hno; simpl.
  - reflexivity.
  - rewrite IH; [reflexivity | intros H; apply Hno; now right].
  - exfalso. apply Hno. now left.
Qed.

(** X7. On a served store, when [update_graphs] returns and the bar chart
    has fewer than 10 bars, the bars add up to the number of points of the
    scatter plot: every restaurant of the filtered table is counted in
    exactly one bar.  The call returns whenever no cuisine is selected or
    the filtered table has a row. *)
Theorem bars_add_up_to_points
        (parse : string -> option float) (fs : filesystem) (s : store)
        (selected_states selected_cities selected_cuisines : option (list string))
        (price_range : float * float) :
  module_body parse fs = Serving s ->
  exists view,
    result (filtered_view selected_states selected_cities selected_cuisines
                          price_range) s = inr view
    /\ (forall figs,
          result (update_graphs selected_states selected_cities selected_cuisines
                                price_range) s = inr figs ->
          length (bar_fig figs) < 10 ->
          total (bar_fig figs) = length (scatter_fig figs))
    /\ (items selected_cuisines = [] \/ view <> [] ->
        exists figs,
          result (update_graphs selected_states selected_cities selected_cuisines
                                price_range) s = inr figs).
Proof.
  intros Hrun.
  destruct (update_graphs_outcome parse fs s selected_states selected_cities
              selected_cuisines price_range Hrun)
    as [view [Hview [_ [Hvalid [Hcases Hreturns]]]]].
  exists view. split; [assumption|]. split.
  - intros figs Hfigs.
    destruct Hcases as [Hok | [Hraise _]]; [|congruence].
    rewrite Hok in Hfigs. injection Hfigs as <-.
    simpl. unfold city_counts, nlargest, scatter_points.
    rewrite length_map, length_firstn. intros Hfew.
    rewrite firstn_all2 by lia.
    rewrite <- (total_perm _ _ (sort_desc_perm _)), total_value_counts.
    rewrite dropna_cells_all; [apply length_map|].
    intros Hnan. apply in_map_iff in Hnan. destruct Hnan as [r [Hcity Hr]].
    destruct (Hvalid r Hr) as [_ [_ [_ [[c [Hc _]] _]]]]. congruence.
  - intros Hcond. eexists. now apply Hreturns.
Qed.

Lemma bars_add_up_to_points_witness :
  exists view,
    result (filtered_view None None (Some ["Pizza"]) (0, 1000)%float) Sample.shop
    = inr view
    /\ (forall figs,
          result (update_graphs None None (Some ["Pizza"]) (0, 1000)%float)
                 Sample.shop = inr figs ->
          length (bar_fig figs) < 10 ->
          total (bar_fig figs) = length (scatter_fig figs))
    /\ (items (Some ["Pizza"]) = [] \/ view <> [] ->
        exists figs,
          result (update_graphs None None (Some ["Pizza"]) (0, 1000)%float)
                 Sample.shop = inr figs).
Proof.
  apply (bars_add_up_to_points Sample.parse_decimal Sample.disk Sample.shop).
  reflexivity.
Defined.

End CountProperties.

(* ------------------------------------------------------------------ *)
(** ** Further properties: the layout and the cascade of choices *)
(* ------------------------------------------------------------------ *)

Section LayoutProperties.
Import Py Pd App Layout.

(** [sorted(col.unique())] on a column without NaN. *)
Lemma sorted_unique_strings (col : list cell) :
  ~ In None col ->
  exists l : list string,
    sorted (unique col) = inr (map Some l)
    /\ ascending l /\ NoDup l
    /\ forall v, In v l <-> In (Some v) col.
Proof.
  intros Hno. exists (sorted_str (dropna_cells (unique col))).
  split; [|split; [|split]].
  - apply sorted_strings, no_nan_existsb. now rewrite unique_In.
  - apply sorted_str_ascending.
  - eapply Permutation_NoDup; [apply sorted_str_perm|].
    apply dropna_cells_NoDup, unique_NoDup.
  - intros v. rewrite <- (unique_In (Some v)), <- dropna_cells_In.
    split; intros Hin.
    + now apply (Permutation_in _ (Permutation_sym (sorted_str_perm _))).
    + now apply (Permutation_in _ (sorted_str_perm _)).
Qed.

(** The city options of a served store for a non-empty selection. *)
Lemma city_options_rows
      (parse : string -> option float) (fs : filesystem) (s : store)
      (selected_states : list string) :
  module_body parse fs = Serving s ->
  selected_states <> [] ->
  exists cities : list string,
    result (set_cities_options (Some selected_states)) s
    = inr (map (fun c => {| label := Some c; value := Some c |}) cities)
    /\ forall c, In c cities <->
         exists r, In r (df s) /\ City r = Some c
                   /\ exists st, State r = Some st /\ In st selected_states.
Proof.
  intros Hrun Hne.
  set (chosen := fun r : Row =>
                   match State r with
                   | Some st => existsb (String.eqb st) selected_states
                   | None => false
                   end).
  assert (Hcol : select (isin (map State (df s)) selected_states) (map City (df s))
                 = map City (filter chosen (df s))).
  { rewrite <- select_map_comm, isin_map, select_map. reflexivity. }
  destruct (sorted_unique_strings (map City (filter chosen (df s))))
    as [cities [Hsorted [_ [_ Hin]]]].
  { rewrite in_map_iff. intros [r [Hnone Hr]].
    apply filter_In in Hr. destruct Hr as [Hr _].
    destruct (served_rows_valid parse fs s Hrun r Hr) as [_ [_ [_ [[c [Hc _]] _]]]].
    congruence. }
  exists cities. split.
  - rewrite set_cities_options_result.
    destruct selected_states as [|st0 rest]; [congruence|].
    cbn [truthy negb items]. rewrite Hcol, Hsorted. now rewrite map_map.
  - intros c. rewrite Hin, in_map_iff. split.
    + intros [r [Hcity Hr]]. apply filter_In in Hr. destruct Hr as [Hr Hsel].
      exists r. repeat split; try assumption.
      unfold chosen in Hsel. destruct (State r) as [st|]; [|discriminate].
      exists st. split; [reflexivity | now apply existsb_eqb_In].
    + intros [r [Hr [Hcity [st [Hst Hsel]]]]].
      exists r. split; [assumption|]. apply filter_In. split; [assumption|].
      unfold chosen. rewrite Hst. now apply existsb_eqb_In.
Qed.

Lemma served_prices_numbers
      (parse : string -> option float) (fs : filesystem) (s : store) :
  module_body parse fs = Serving s ->
  Forall (fun v => is_nan v = false) (map Price (df s)).
Proof.
  intros Hrun. rewrite Forall_forall. intros v Hv.
  apply in_map_iff in Hv. destruct Hv as [r [<- Hr]].
  now destruct (served_rows_valid parse fs s Hrun r Hr) as [Hp _].
Qed.

(** X8. When the layout is built on a served store, the state dropdown
    offers the states of the rows of [df], each once, in ascending order; the
    cuisine dropdown offers [all_cuisines]; the city dropdown starts without
    options. *)
Theorem layout_options
        (parse : string -> option float) (fs : filesystem) (s : store)
        (lay : inputs) :
  module_body parse fs = Serving s ->
  app_layout s = inr lay ->
  exists states : list string,
    state_filter_options lay
    = map (fun st => {| label := Some st; value := Some st |}) states
    /\ ascending states
    /\ NoDup states
    /\ (forall st, In st states <-> exists r, In r (df s) /\ State r = Some st)
    /\ cuisine_filter_options lay
       = map (fun i => {| label := i; value := i |}) (all_cuisines s)
    /\ city_filter_options lay = [].
Proof.
  intros Hrun.
  destruct (sorted_unique_strings (map State (df s)))
    as [states [Hsorted [Hasc [Hnd Hin]]]].
  { rewrite in_map_iff. intros [r [Hnone Hr]].
    destruct (served_rows_valid parse fs s Hrun r Hr) as [_ [_ [[st [Hst _]] _]]].
    congruence. }
  unfold app_layout. rewrite Hsorted.
  intros Hlay. destruct (py_int _) as [e|top]; [discriminate|].
  injection Hlay as <-. exists states. simpl.
  split; [now rewrite map_map|].
  split; [assumption|]. split; [assumption|].
  split; [|split; reflexivity].
  intros st. rewrite Hin, in_map_iff. split.
  - intros [r [Hst Hr]]. now exists r.
  - intros [r [Hr Hst]]. now exists r.
Qed.

Lemma layout_options_witness :
  exists states : list string,
    state_filter_options Sample.window
    = map (fun st => {| label := Some st; value := Some st |}) states
    /\ ascending states
    /\ NoDup states
    /\ (forall st, In st states <->
                   exists r, In r (df Sample.shop) /\ State r = Some st)
    /\ cuisine_filter_options Sample.window
       = map (fun i => {| label := i; value := i |}) (all_cuisines Sample.shop)
    /\ city_filter_options Sample.window = [].
Proof.
  apply (layout_options Sample.parse_decimal Sample.disk Sample.shop Sample.window);
    reflexivity.
Defined.

(** X9. Every state the layout offers has cities: selecting it alone makes
    callback 1 return a non-empty list of city options. *)
Theorem offered_state_has_cities
        (parse : string -> option float) (fs : filesystem) (s : store)
        (lay : inputs) (st : string) :
  module_body parse fs = Serving s ->
  app_layout s = inr lay ->
  In {| label := Some st; value := Some st |} (state_filter_options lay) ->
  exists cities : list string,
    result (set_cities_options (Some [st])) s
    = inr (map (fun c => {| label := Some c; value := Some c |}) cities)
    /\ cities <> [].
Proof.
  intros Hrun Hlay Hopt.
  assert (Hrow : exists r, In r (df s) /\ State r = Some st).
  { unfold app_layout in Hlay.
    destruct (sorted (unique (map State (df s)))) as [e|states] eqn:Hsorted;
      [discriminate|].
    destruct (py_int _) as [e|top]; [discriminate|].
    injection Hlay as <-. simpl in Hopt.
    apply in_map_iff in Hopt. destruct Hopt as [cell [Hcell Hin]].
    injection Hcell as ->.
    assert (Hst : In (Some st) (unique (map State (df s)))).
    { unfold sorted in Hsorted.
      destruct (forallb isna (unique (map State (df s)))) eqn:Hall.
      - injection Hsorted as <-.
        rewrite forallb_forall in Hall. specialize (Hall _ Hin). discriminate.
      - destruct (existsb isna (unique (map State (df s)))); [discriminate|].
        injection Hsorted as <-.
        apply in_map_iff in Hin. destruct Hin as [v [[= ->] Hv]].
        apply (Permutation_in _ (Permutation_sym (sorted_str_perm _))) in Hv.
        now apply dropna_cells_In. }
    rewrite unique_In, in_map_iff in Hst. destruct Hst as [r [Hr Hin']].
    now exists r. }
  destruct Hrow as [r [Hr Hst]].
  destruct (city_options_rows parse fs s [st] Hrun) as [cities [Hres Hin]];
    [discriminate|].
  exists cities. split; [assumption|].
  destruct (served_rows_valid parse fs s Hrun r Hr) as [_ [_ [_ [[c [Hc _]] _]]]].
  assert (Hc' : In c cities).
  { apply Hin. exists r. repeat split; try assumption.
    exists st. split; [assumption | now left]. }
  intros ->. contradiction.
Qed.

Lemma offered_state_has_cities_witness :
  exists cities : list string,
    result (set_cities_options (Some ["Karnataka"])) Sample.shop
    = inr (map (fun c => {| label := Some c; value := Some c |}) cities)
    /\ cities <> [].
Proof.
  apply (offered_state_has_cities Sample.parse_decimal Sample.disk Sample.shop
           Sample.window "Karnataka").
  - reflexivity.
  - reflexivity.
  - now left.
Defined.

End LayoutProperties.

(* ------------------------------------------------------------------ *)
(** ** Further properties: the price slider *)
(* ------------------------------------------------------------------ *)

Section SliderProperties.
Import Py Pd App Layout.

Example sample_layout : app_layout Sample.shop = inr Sample.window.
Proof. reflexivity. Qed.

Lemma layout_slider (s : store) (lay : inputs) :
  app_layout s = inr lay ->
  slider_value (price_slider lay)
  = (series_min (map Price (df s)), series_max (map Price (df s)))
  /\ slider_min (price_slider lay) = series_min (map Price (df s))
  /\ slider_max (price_slider lay) = series_max (map Price (df s)).
Proof.
  unfold app_layout. destruct (sorted _); [discriminate|].
  destruct (py_int _); [discriminate|].
  intros [= <-]. repeat split.
Qed.

(** X10. The slider starts on a range that holds every price of [df]: its
    two ends are the lowest and the highest price of the table.  So with the
    slider untouched and some categorical selection made, the price test
    removes nothing: the filtered table holds exactly the rows of [df] that
    pass the state, city and cuisine tests. *)
Theorem initial_slider_keeps_every_price
        (parse : string -> option float) (fs : filesystem) (s : store)
        (lay : inputs)
        (selected_states selected_cities selected_cuisines : option (list string)) :
  module_body parse fs = Serving s ->
  app_layout s = inr lay ->
  (forall r, In r (df s) ->
             in_price_range (slider_value (price_slider lay)) (Price r))
  /\ (df s <> [] ->
      exists lowest highest,
        In lowest (df s) /\ In highest (df s)
        /\ slider_value (price_slider lay) = (Price lowest, Price highest))
  /\ (items selected_states <> [] \/ items selected_cities <> []
      \/ items selected_cuisines <> [] ->
      exists view,
        result (filtered_view selected_states selected_cities selected_cuisines
                              (slider_value (price_slider lay))) s = inr view
        /\ forall r, In r view <->
             In r (df s)
             /\ (items selected_states = []
                 \/ exists st, State r = Some st /\ In st (items selected_states))
             /\ (items selected_cities = []
                 \/ exists c, City r = Some c /\ In c (items selected_cities))
             /\ (items selected_cuisines = []
                 \/ exists cuisine f, In cuisine (items selected_cuisines)
                                      /\ Food_type r = Some f
                                      /\ Substring cuisine f)).
Proof.
  intros Hrun Hlay.
  destruct (layout_slider s lay Hlay) as [Hvalue _].
  pose proof (served_prices_numbers parse fs s Hrun) as Hnum.
  assert (Hall : forall r, In r (df s) ->
                   in_price_range (slider_value (price_slider lay)) (Price r)).
  { intros r Hr. rewrite Hvalue. unfold in_price_range. simpl.
    destruct (series_min_max_bound (map Price (df s)) (Price r) Hnum)
      as [Hlo [Hhi _]]; [now apply in_map|]. now split. }
  split; [exact Hall|]. split.
  - intros Hne. destruct (df s) as [|r0 rows] eqn:Hdf; [congruence|].
    destruct (series_min_max_bound (map Price (r0 :: rows)) (Price r0) Hnum)
      as [_ [_ [Hmin Hmax]]]; [now left|].
    apply in_map_iff in Hmin. destruct Hmin as [lowest [Hlow Hlin]].
    apply in_map_iff in Hmax. destruct Hmax as [highest [Hhigh Hhin]].
    exists lowest, highest. repeat split; try assumption.
    rewrite Hvalue. now rewrite Hlow, Hhigh.
  - intros Hactive.
    destruct (filtered_view_rows selected_states selected_cities selected_cuisines
                (slider_value (price_slider lay)) s) as [view [Heq [_ [_ Hrows]]]].
    + intros r Hr.
      destruct (served_rows_valid parse fs s Hrun r Hr) as [_ [_ [_ [_ [f [Hf _]]]]]].
      now exists f.
    + exists view. unfold result. rewrite Heq. split; [reflexivity|].
      intros r. rewrite (Hrows Hactive r). split.
      * intros [Hr [_ Hrest]]. now split.
      * intros [Hr Hrest]. split; [assumption|]. split; [now apply Hall | assumption].
Qed.

Lemma initial_slider_keeps_every_price_witness :
  (forall r, In r (df Sample.shop) ->
             in_price_range (slider_value (price_slider Sample.window)) (Price r))
  /\ (df Sample.shop <> [] ->
      exists lowest highest,
        In lowest (df Sample.shop) /\ In highest (df Sample.shop)
        /\ slider_value (price_slider Sample.window) = (Price lowest, Price highest))
  /\ (items (Some ["Karnataka"]) <> [] \/ items (@None (list string)) <> []
      \/ items (@None (list string)) <> [] ->
      exists view,
        result (filtered_view (Some ["Karnataka"]) None None
                              (slider_value (price_slider Sample.window)))
               Sample.shop = inr view
        /\ forall r, In r view <->
             In r (df Sample.shop)
             /\ (items (Some ["Karnataka"]) = []
                 \/ exists st, State r = Some st /\ In st (items (Some ["Karnataka"])))
             /\ (items (@None (list string)) = []
                 \/ exists c, City r = Some c /\ In c (items (@None (list string))))
             /\ (items (@None (list string)) = []
                 \/ exists cuisine f, In cuisine (items (@None (list string)))
                                      /\ Food_type r = Some f
                                      /\ Substring cuisine f)).
Proof.
  apply (initial_slider_keeps_every_price Sample.parse_decimal Sample.disk
           Sample.shop Sample.window (Some ["Karnataka"]) None None);
    reflexivity.
Defined.

(** X11. A choice made from what the dashboard offers is never empty: with
    one state selected, one of the cities callback 1 then offers selected,
    and the slider untouched, the filtered table has at least one row. *)
Theorem offered_choice_shows_rows
        (parse : string -> option float) (fs : filesystem) (s : store)
        (lay : inputs) (st c : string) (options : list dropdown_option) :
  module_body parse fs = Serving s ->
  app_layout s = inr lay ->
  result (set_cities_options (Some [st])) s = inr options ->
  In {| label := Some c; value := Some c |} options ->
  exists view,
    result (filtered_view (Some [st]) (Some [c]) None
                          (slider_value (price_slider lay))) s = inr view
    /\ view <> [].
Proof.
  intros Hrun Hlay Hopts Hopt.
  destruct (city_options_rows parse fs s [st] Hrun) as [cities [Hres Hin]];
    [discriminate|].
  rewrite Hres in Hopts. injection Hopts as <-.
  apply in_map_iff in Hopt. destruct Hopt as [c' [Hc' Hcin]].
  injection Hc' as ->.
  apply Hin in Hcin. destruct Hcin as [r [Hr [Hcity [st' [Hst Hsel]]]]].
  destruct (layout_slider s lay Hlay) as [Hvalue _].
  pose proof (served_prices_numbers parse fs s Hrun) as Hnum.
  destruct (filtered_view_rows (Some [st]) (Some [c]) None
              (slider_value (price_slider lay)) s) as [view [Heq [_ [_ Hrows]]]].
  - intros r' Hr'.
    destruct (served_rows_valid parse fs s Hrun r' Hr') as [_ [_ [_ [_ [f [Hf _]]]]]].
    now exists f.
  - exists view. unfold result. rewrite Heq. split; [reflexivity|].
    assert (Hview : In r view).
    { apply Hrows; [left; discriminate|].
      split; [assumption|]. split.
      - rewrite Hvalue. unfold in_price_range. simpl.
        destruct (series_min_max_bound (map Price (df s)) (Price r) Hnum)
          as [Hlo [Hhi _]]; [now apply in_map|]. now split.
      - split; [right; now exists st'|].
        split; [right; exists c; split; [assumption | now left]|].
        now left. }
    intros ->. contradiction.
Qed.

Lemma offered_choice_shows_rows_witness :
  exists view,
    result (filtered_view (Some ["Maharashtra"]) (Some ["Pune"]) None
                          (slider_value (price_slider Sample.window)))
           Sample.shop = inr view
    /\ view <> [].
Proof.
  apply (offered_choice_shows_rows Sample.parse_decimal Sample.disk Sample.shop
           Sample.window "Maharashtra" "Pune"
           [ {| label := Some "Mumbai"; value := Some "Mumbai" |};
             {| label := Some "Pune"; value := Some "Pune" |} ]).
  - reflexivity.
  - reflexivity.
  - reflexivity.
  - right. now left.
Defined.

End SliderProperties.

(* ------------------------------------------------------------------ *)
(** ** Further properties: how the answers depend on the selections *)
(* ------------------------------------------------------------------ *)

Section SelectionProperties.
Import Py Pd App.

Lemma truthy_same {A : Type} (v v' : option (list A)) :
  (forall a, In a (items v) <-> In a (items v')) -> truthy v = truthy v'.
Proof.
  intros Hsame.
  destruct (truthy v) eqn:Hv, (truthy v') eqn:Hv'; try reflexivity.
  - apply truthy_items in Hv'.
    destruct v as [[|a l]|]; try discriminate.
    assert (H : In a (items v')) by (apply Hsame; now left).
    rewrite Hv' in H. contradiction.
  - apply truthy_items in Hv.
    destruct v' as [[|a l]|]; try discriminate.
    assert (H : In a (items v)) by (apply Hsame; now left).
    rewrite Hv in H. contradiction.
Qed.

Lemma existsb_same {A : Type} (p : A -> bool) (a b : list A) :
  (forall v, In v a <-> In v b) -> existsb p a = existsb p b.
Proof.
  intros Hsame.
  destruct (existsb p a) eqn:Ha, (existsb p b) eqn:Hb; try reflexivity.
  - apply existsb_exists in Ha. destruct Ha as [v [Hin Hp]].
    assert (Hex : existsb p b = true)
      by (apply existsb_exists; exists v; split; [now apply Hsame | assumption]).
    congruence.
  - apply existsb_exists in Hb. destruct Hb as [v [Hin Hp]].
    assert (Hex : existsb p a = true)
      by (apply existsb_exists; exists v; split; [now apply Hsame | assumption]).
    congruence.
Qed.

Lemma isin_same (a b : list string) :
  same_elements a b -> forall col, isin col a = isin col b.
Proof.
  intros Hsame col. unfold isin. apply map_ext.
  intros [v|]; [now apply existsb_same | reflexivity].
Qed.

Lemma any_cuisine_in_same (a b : list string) :
  same_elements a b -> forall cell, any_cuisine_in a cell = any_cuisine_in b cell.
Proof.
  intros Hsame [v|].
  - rewrite !any_cuisine_in_str. f_equal. now apply existsb_same.
  - destruct a as [|x a], b as [|y b]; try reflexivity.
    + destruct (proj2 (Hsame y)); now left.
    + destruct (proj1 (Hsame x)); now left.
Qed.

Lemma apply_ext {A B : Type} (f g : A -> exn + B) (col : list A) :
  (forall a, f a = g a) -> apply f col = apply g col.
Proof.
  intros Hfg. induction col as [|a col IH]; simpl; [reflexivity|].
  now rewrite Hfg, IH.
Qed.

(** X12. The city options depend on which states are selected, not on the
    order in which they were picked nor on repetitions: two selections with
    the same elements get the same answer, on any table. *)
Theorem city_options_ignore_order (s : store) (first second : list string) :
  same_elements first second ->
  result (set_cities_options (Some first)) s
  = result (set_cities_options (Some second)) s.
Proof.
  intros Hsame. rewrite !set_cities_options_result.
  rewrite (truthy_same (Some first) (Some second) Hsame).
  cbn [items]. now rewrite (isin_same first second Hsame).
Qed.

Lemma city_options_ignore_order_witness :
  result (set_cities_options (Some ["Goa"; "Karnataka"])) Sample.shop
  = result (set_cities_options (Some ["Karnataka"; "Goa"; "Karnataka"])) Sample.shop.
Proof.
  apply (city_options_ignore_order Sample.shop).
  intros v. simpl. tauto.
Defined.

(** X13. The figures depend on which states, cities and cuisines are
    selected, not on their order, on repetitions, or on whether an empty
    selection arrives as [None] or as [[]]: two calls whose selections have
    the same elements give the same answer, on any table. *)
Theorem figures_ignore_order
        (s : store)
        (states states' cities cities' cuisines cuisines' : option (list string))
        (price_range : float * float) :
  same_elements (items states) (items states') ->
  same_elements (items cities) (items cities') ->
  same_elements (items cuisines) (items cuisines') ->
  result (filtered_view states cities cuisines price_range) s
  = result (filtered_view states' cities' cuisines' price_range) s
  /\ result (update_graphs states cities cuisines price_range) s
     = result (update_graphs states' cities' cuisines' price_range) s.
Proof.
  intros Hs Hc Hf.
  assert (Heq : filtered_view states cities cuisines price_range s
                = filtered_view states' cities' cuisines' price_range s).
  { unfold filtered_view, bind, global_df. cbv zeta.
    rewrite (truthy_same states states' Hs), (truthy_same cities cities' Hc),
            (truthy_same cuisines cuisines' Hf).
    rewrite !(isin_same _ _ Hs), !(isin_same _ _ Hc).
    now rewrite (apply_ext _ _ _ (any_cuisine_in_same _ _ Hf)). }
  assert (Hframe : filtered_frame states cities cuisines price_range s
                   = filtered_frame states' cities' cuisines' price_range s).
  { unfold filtered_frame, bind, global_df. cbv zeta.
    rewrite (truthy_same states states' Hs), (truthy_same cities cities' Hc),
            (truthy_same cuisines cuisines' Hf).
    rewrite !(isin_same _ _ Hs), !(isin_same _ _ Hc).
    now rewrite (apply_ext _ _ _ (any_cuisine_in_same _ _ Hf)). }
  unfold result, update_graphs, bind. now rewrite Heq, Hframe.
Qed.

Lemma figures_ignore_order_witness :
  result (filtered_view (Some ["Maharashtra"; "Goa"]) None (Some ["Pizza"])
                        (0, 1000)%float) Sample.shop
  = result (filtered_view (Some ["Goa"; "Maharashtra"; "Goa"]) (Some [])
                          (Some ["Pizza"; "Pizza"]) (0, 1000)%float) Sample.shop
  /\ result (update_graphs (Some ["Maharashtra"; "Goa"]) None (Some ["Pizza"])
                           (0, 1000)%float) Sample.shop
     = result (update_graphs (Some ["Goa"; "Maharashtra"; "Goa"]) (Some [])
                             (Some ["Pizza"; "Pizza"]) (0, 1000)%float) Sample.shop.
Proof.
  apply (figures_ignore_order Sample.shop);
    intros v; simpl; tauto.
Defined.

(** X14. Loosening a selection never hides a restaurant: on a served store,
    when each of the three selections is replaced by a looser one (emptied,
    or extended while it was non-empty) and the price range is kept, every
    row of the old filtered table is in the new one. *)
Theorem looser_selection_shows_more
        (parse : string -> option float) (fs : filesystem) (s : store)
        (states states' cities cities' cuisines cuisines' : option (list string))
        (price_range : float * float) :
  module_body parse fs = Serving s ->
  looser states states' -> looser cities cities' -> looser cuisines cuisines' ->
  exists view view',
    result (filtered_view states cities cuisines price_range) s = inr view
    /\ result (filtered_view states' cities' cuisines' price_range) s = inr view'
    /\ forall r, In r view -> In r view'.
Proof.
  intros Hrun Ls Lc Lf.
  assert (Hfood : forall r, In r (df s) -> exists f, Food_type r = Some f).
  { intros r Hr.
    destruct (served_rows_valid parse fs s Hrun r Hr) as [_ [_ [_ [_ [f [Hf _]]]]]].
    now exists f. }
  destruct (filtered_view_rows states cities cuisines price_range s Hfood)
    as [view [Heq [Hsub [_ Hrows]]]].
  destruct (filtered_view_rows states' cities' cuisines' price_range s Hfood)
    as [view' [Heq' [_ [Hall' Hrows']]]].
  exists view, view'. unfold result. rewrite Heq, Heq'.
  split; [reflexivity|]. split; [reflexivity|].
  intros r Hr.
  destruct (list_eq_dec string_dec (items states') []) as [Es|Es];
    [destruct (list_eq_dec string_dec (items cities') []) as [Ec|Ec];
     [destruct (list_eq_dec string_dec (items cuisines') []) as [Ef|Ef]|]|].
  1: { rewrite (Hall' Es Ec Ef). now apply (Subseq_In _ _ _ Hsub). }
  all: assert (Hactive' : items states' <> [] \/ items cities' <> []
                         \/ items cuisines' <> []) by tauto;
       assert (Hactive : items states <> [] \/ items cities <> []
                         \/ items cuisines <> [])
         by (unfold looser in Ls, Lc, Lf; tauto);
       apply (Hrows' Hactive');
       apply (Hrows Hactive) in Hr;
       destruct Hr as [Hdf [Hprice [Hst [Hci Hcu]]]];
       split; [assumption|]; split; [assumption|];
       split; [|split].
  all: try (destruct Ls as [Ls | [Lne Lincl]]; [now left|];
            destruct Hst as [Hst | [st [Hst Hin]]]; [contradiction|];
            right; exists st; split; [assumption | now apply Lincl]).
  all: try (destruct Lc as [Lc | [Lne Lincl]]; [now left|];
            destruct Hci as [Hci | [c [Hci Hin]]]; [contradiction|];
            right; exists c; split; [assumption | now apply Lincl]).
  all: destruct Lf as [Lf | [Lne Lincl]]; [now left|];
       destruct Hcu as [Hcu | [cu [f [Hin [Hf Hsubs]]]]]; [contradiction|];
       right; exists cu, f; repeat split; try assumption; now apply Lincl.
Qed.

Lemma looser_selection_shows_more_witness :
  exists view view',
    result (filtered_view (Some ["Maharashtra"]) (Some ["Pune"]) None
                          (0, 1000)%float) Sample.shop = inr view
    /\ result (filtered_view (Some ["Maharashtra"; "Goa"]) None None
                             (0, 1000)%float) Sample.shop = inr view'
    /\ forall r, In r view -> In r view'.
Proof.
  apply (looser_selection_shows_more Sample.parse_decimal Sample.disk Sample.shop).
  - reflexivity.
  - right. split; [discriminate|]. intros v [<- | []]. now left.
  - now left.
  - now left.
Defined.

(** X15. The city options of a union of selections are the cities of either
    part: on a served store, a city is offered for the states of [first]
    followed by those of [second] exactly when it is offered for [first] or
    for [second]. *)
Theorem cities_of_union
        (parse : string -> option float) (fs : filesystem) (s : store)
        (first second : list string) :
  module_body parse fs = Serving s ->
  first <> [] -> second <> [] ->
  exists both one other : list string,
    result (set_cities_options (Some (first ++ second)%list)) s
    = inr (map (fun c => {| label := Some c; value := Some c |}) both)
    /\ result (set_cities_options (Some first)) s
       = inr (map (fun c => {| label := Some c; value := Some c |}) one)
    /\ result (set_cities_options (Some second)) s
       = inr (map (fun c => {| label := Some c; value := Some c |}) other)
    /\ forall c, In c both <-> In c one \/ In c other.
Proof.
  intros Hrun H1 H2.
  destruct (city_options_rows parse fs s (first ++ second)%list Hrun)
    as [both [Hboth Hin]].
  { destruct first; [congruence | discriminate]. }
  destruct (city_options_rows parse fs s first Hrun H1) as [one [Hone Hin1]].
  destruct (city_options_rows parse fs s second Hrun H2) as [other [Hother Hin2]].
  exists both, one, other. repeat split; try assumption.
  - intros Hc. apply Hin in Hc. destruct Hc as [r [Hr [Hcity [st [Hst Hsel]]]]].
    apply in_app_or in Hsel. destruct Hsel as [Hsel | Hsel].
    + left. apply Hin1. exists r. repeat split; try assumption. now exists st.
    + right. apply Hin2. exists r. repeat split; try assumption. now exists st.
  - intros [Hc | Hc].
    + apply Hin1 in Hc. destruct Hc as [r [Hr [Hcity [st [Hst Hsel]]]]].
      apply Hin. exists r. repeat split; try assumption.
      exists st. split; [assumption | apply in_or_app; now left].
    + apply Hin2 in Hc. destruct Hc as [r [Hr [Hcity [st [Hst Hsel]]]]].
      apply Hin. exists r. repeat split; try assumption.
      exists st. split; [assumption | apply in_or_app; now right].
Qed.

Lemma cities_of_union_witness :
  exists both one other : list string,
    result (set_cities_options (Some (["Maharashtra"] ++ ["Karnataka"])%list))
           Sample.shop
    = inr (map (fun c => {| label := Some c; value := Some c |}) both)
    /\ result (set_cities_options (Some ["Maharashtra"])) Sample.shop
       = inr (map (fun c => {| label := Some c; value := Some c |}) one)
    /\ result (set_cities_options (Some ["Karnataka"])) Sample.shop
       = inr (map (fun c => {| label := Some c; value := Some c |}) other)
    /\ forall c, In c both <-> In c one \/ In c other.
Proof.
  apply (cities_of_union Sample.parse_decimal Sample.disk Sample.shop);
    [reflexivity | discriminate | discriminate].
Defined.

End SelectionProperties.

(* ------------------------------------------------------------------ *)
(** ** Further properties: start-up on poor files *)
(* ------------------------------------------------------------------ *)

Section PoorFiles.
Import Py Pd App Layout.

(** X16. Unusable lines do not stop start-up as long as the food type column
    is text: when the file has no line at all, or some line has a food type
    that is neither missing, nor a number, nor a boolean word, lines 15-27
    end with the state set, whatever else the lines hold, and [df] has at
    most as many rows as the file has lines.  But when the file has lines
    and none of them has a food type, [read_csv] makes the column float64
    and line 27 raises [AttributeError]. *)
Theorem startup_survives_bad_rows
        (parse : string -> option float) (fs : filesystem)
        (records : list CsvRecord) :
  fs csv_path = Csv records ->
  (records = []
   \/ (exists rec, In rec records
                   /\ is_na_field (csv_Food_type rec) = false
                   /\ parse (csv_Food_type rec) = None
                   /\ ~ In (csv_Food_type rec) bool_texts) ->
   exists s,
     module_body parse fs = Serving s
     /\ length (df s) <= length records)
  /\ (records <> [] ->
      (forall rec, In rec records -> is_na_field (csv_Food_type rec) = true) ->
      module_body parse fs = Uncaught AttributeError).
Proof.
  intros Hfile. split.
  - intros Htext.
    assert (Hkind : column_kind_of parse (map raw_Food_type (map read_record records))
                    = TextColumn).
    { destruct Htext as [-> | [rec [Hin [Hna [Hnum Hbool]]]]]; [reflexivity|].
      now apply (column_kind_text parse records rec). }
    destruct (module_body_Csv parse fs records Hfile) as [c Heq].
    { now rewrite Hkind. }
    eexists. split; [exact Heq|]. simpl. unfold dropna.
    rewrite <- (length_map read_record records),
            <- (length_map (coerce parse) (map read_record records)).
    apply filter_length_le.
  - intros Hne Hall.
    rewrite (module_body_Csv_outcome parse fs records Hfile).
    now rewrite (column_kind_all_missing parse records Hne Hall).
Qed.

Lemma startup_survives_bad_rows_witness :
  (exists s,
     module_body Sample.parse_decimal Sample.unusable_disk = Serving s
     /\ length (df s)
        <= length [ mkCsv "D" "Karnataka" "Mysuru" "cheap" "4.0" "Thai";
                    mkCsv "E" "Goa" "" "250" "3.5" "Seafood" ])
  /\ module_body Sample.parse_decimal Sample.foodless_disk
     = Uncaught AttributeError.
Proof.
  split.
  - apply (startup_survives_bad_rows Sample.parse_decimal Sample.unusable_disk);
      [reflexivity|].
    right. exists (mkCsv "D" "Karnataka" "Mysuru" "cheap" "4.0" "Thai").
    split; [now left|]. split; [reflexivity|]. split; [reflexivity|].
    intros [H|[H|[H|[H|[H|[H|[]]]]]]]; discriminate.
  - apply (startup_survives_bad_rows Sample.parse_decimal Sample.foodless_disk
             [ mkCsv "A" "Maharashtra" "Pune" "300" "4.2" "";
               mkCsv "B" "Maharashtra" "Mumbai" "800" "3.9" "NA" ]);
      [reflexivity | discriminate |].
    intros rec [<- | [<- | []]]; reflexivity.
Defined.

(** A file with the header line only starts with an empty table. *)
Example header_only_startup :
  module_body Sample.parse_decimal Sample.header_only_disk
  = Serving {| df := []; all_cuisines := [] |}.
Proof. reflexivity. Qed.

(** X17. A line is left out of [df] when its price or its rating is text
    that is not a number, or when its state, city or food type is empty or
    one of the texts [read_csv] reads as missing: no row of [df] has the
    NaN that such a line gets. *)
Theorem bad_fields_are_dropped
        (parse : string -> option float) (fs : filesystem) (s : store)
        (rec : CsvRecord) :
  module_body parse fs = Serving s ->
  parse (csv_Price rec) = None
  \/ parse (csv_Avg_ratings rec) = None
  \/ is_na_field (csv_State rec) = true
  \/ is_na_field (csv_City rec) = true
  \/ is_na_field (csv_Food_type rec) = true ->
  ~ In (coerce parse (read_record rec)) (df s).
Proof.
  intros Hrun Hbad Hin.
  destruct (served_rows_valid parse fs s Hrun _ Hin)
    as [Hp [Ha [[st [Hst _]] [[c [Hc _]] [f [Hf _]]]]]].
  simpl in Hp, Ha, Hst, Hc, Hf.
  unfold read_number, read_text, to_numeric in *.
  destruct Hbad as [H | [H | [H | [H | H]]]].
  - destruct (is_na_field (csv_Price rec)); [discriminate|].
    rewrite H in Hp. discriminate.
  - destruct (is_na_field (csv_Avg_ratings rec)); [discriminate|].
    rewrite H in Ha. discriminate.
  - rewrite H in Hst. discriminate.
  - rewrite H in Hc. discriminate.
  - rewrite H in Hf. discriminate.
Qed.

Lemma bad_fields_are_dropped_witness :
  ~ In (coerce Sample.parse_decimal
          (read_record (mkCsv "D" "Karnataka" "Mysuru" "cheap" "4.0" "Thai")))
       (df Sample.shop).
Proof.
  apply (bad_fields_are_dropped Sample.parse_decimal Sample.disk Sample.shop).
  - reflexivity.
  - left. reflexivity.
Defined.

Lemma py_int_nan : py_int nan = inl ValueError.
Proof. reflexivity. Qed.

Lemma py_int_number (v : float) :
  is_nan v = false ->
  (exists top, py_int v = inr top) \/ (py_int v = inl OverflowError /\ infinite v).
Proof.
  intros Hv. apply is_nan_false in Hv. unfold py_int, infinite.
  destruct (Prim2SF v) as [sign|sign| |sign m e]; try congruence.
  - left. now eexists.
  - right. split; [reflexivity | now exists sign].
  - left. now eexists.
Qed.

(** X18. The layout needs a price to build the slider marks.  On a served
    store with no row ([df] empty, as after a file without a usable line)
    evaluating the layout raises [ValueError], from [int] of the NaN that
    [max] returns.  With rows it is built, unless a price is infinite:
    then it raises [OverflowError]. *)
Theorem layout_needs_finite_prices
        (parse : string -> option float) (fs : filesystem) (s : store) :
  module_body parse fs = Serving s ->
  (df s = [] -> app_layout s = inl ValueError)
  /\ (df s <> [] ->
      (exists lay, app_layout s = inr lay)
      \/ (app_layout s = inl OverflowError
          /\ exists r, In r (df s) /\ infinite (Price r))).
Proof.
  intros Hrun. split.
  - intros Hdf. unfold app_layout. rewrite Hdf. reflexivity.
  - intros Hdf.
    destruct (sorted_unique_strings (map State (df s))) as [states [Hsorted _]].
    { rewrite in_map_iff. intros [r [Hnone Hr]].
      destruct (served_rows_valid parse fs s Hrun r Hr) as [_ [_ [[st [Hst _]] _]]].
      congruence. }
    pose proof (served_prices_numbers parse fs s Hrun) as Hnum.
    destruct (df s) as [|r0 rows] eqn:Hrows; [congruence|].
    destruct (series_min_max_bound (map Price (r0 :: rows)) (Price r0) Hnum)
      as [_ [_ [_ Hmax]]]; [now left|].
    assert (Hnan : is_nan (series_max (map Price (r0 :: rows))) = false)
      by (rewrite Forall_forall in Hnum; now apply Hnum).
    unfold app_layout. rewrite Hrows, Hsorted.
    destruct (py_int_number _ Hnan) as [[top ->] | [-> Hinf]].
    + left. now eexists.
    + right. split; [reflexivity|].
      apply in_map_iff in Hmax. destruct Hmax as [r [Hr Hin]].
      exists r. split; [assumption | now rewrite Hr].
Qed.

Lemma layout_needs_finite_prices_witness :
  module_body Sample.parse_decimal Sample.unusable_disk
  = Serving {| df := []; all_cuisines := [] |}
  /\ (df {| df := []; all_cuisines := [] |} = [] ->
      app_layout {| df := []; all_cuisines := [] |} = inl ValueError)
  /\ (df {| df := []; all_cuisines := [] |} <> [] ->
      (exists lay, app_layout {| df := []; all_cuisines := [] |} = inr lay)
      \/ (app_layout {| df := []; all_cuisines := [] |} = inl OverflowError
          /\ exists r, In r (df {| df := []; all_cuisines := [] |})
                       /\ infinite (Price r))).
Proof.
  split; [reflexivity|].
  apply (layout_needs_finite_prices Sample.parse_decimal Sample.unusable_disk).
  reflexivity.
Defined.

(** X19. The marks of the slider, when the layout is built: there is one
    mark for every multiple of 500 from 0 up to the integer part of the
    highest price, labelled with the rupee sign and the number, and no
    other. *)
Theorem slider_marks_every_500 (s : store) (lay : inputs) :
  app_layout s = inr lay ->
  exists top,
    py_int (slider_max (price_slider lay)) = inr top
    /\ forall i label,
         In (i, label) (slider_marks (price_slider lay)) <->
         label = mark_label i
         /\ exists k, i = (500 * k)%Z /\ (0 <= k)%Z /\ (500 * k <= top)%Z.
Proof.
  unfold app_layout. destruct (sorted _) as [e|states]; [discriminate|].
  destruct (py_int (series_max (map Price (df s)))) as [e|top] eqn:Htop;
    [discriminate|].
  intros [= <-]. cbn [price_slider slider_marks slider_max].
  exists top. split; [assumption|].
  intros i label. unfold range0. rewrite in_map_iff. split.
  - intros [j [[= <- <-] Hj]]. split; [reflexivity|].
    apply in_map_iff in Hj. destruct Hj as [k [<- Hk]].
    apply in_seq in Hk. exists (Z.of_nat k). split; [reflexivity|].
    split; [lia|].
    assert (Hlt : (Z.of_nat k < (top + 1 + 500 - 1) / 500)%Z) by lia.
    assert (Hdiv : (500 * ((top + 1 + 500 - 1) / 500) <= top + 1 + 500 - 1)%Z)
      by (apply Z.mul_div_le; lia).
    lia.
  - intros [-> [k [-> [Hk0 Hktop]]]].
    exists (500 * k)%Z. split; [reflexivity|].
    apply in_map_iff. exists (Z.to_nat k). split; [now rewrite Z2Nat.id|].
    apply in_seq. split; [lia|].
    assert (Hle : (k + 1 <= (top + 1 + 500 - 1) / 500)%Z)
      by (apply Z.div_le_lower_bound; lia).
    lia.
Qed.

Lemma slider_marks_every_500_witness :
  exists top,
    py_int (slider_max (price_slider Sample.window)) = inr top
    /\ forall i label,
         In (i, label) (slider_marks (price_slider Sample.window)) <->
         label = mark_label i
         /\ exists k, i = (500 * k)%Z /\ (0 <= k)%Z /\ (500 * k <= top)%Z.
Proof.
  apply (slider_marks_every_500 Sample.shop Sample.window).
  reflexivity.
Defined.

End PoorFiles.

(* ------------------------------------------------------------------ *)
(** ** Further properties: scatter points and food type pieces *)
(* ------------------------------------------------------------------ *)

Section PointsAndPieces.
Import Py Pd App.

(** X20. On a served store, when [update_graphs] returns, the scatter plot
    has one point per row of the filtered table, in the order of the rows,
    and every point has numbers (not NaN) for its price and its rating; the
    colour is the rating.  The call returns whenever no cuisine is selected
    or the filtered table has a row. *)
Theorem scatter_points_are_numbers
        (parse : string -> option float) (fs : filesystem) (s : store)
        (selected_states selected_cities selected_cuisines : option (list string))
        (price_range : float * float) :
  module_body parse fs = Serving s ->
  exists view,
    result (filtered_view selected_states selected_cities selected_cuisines
                          price_range) s = inr view
    /\ (forall figs,
          result (update_graphs selected_states selected_cities selected_cuisines
                                price_range) s = inr figs ->
          map x (scatter_fig figs) = map Price view
          /\ map y (scatter_fig figs) = map Avg_ratings view
          /\ map hover_name (scatter_fig figs) = map Restaurant view
          /\ forall p, In p (scatter_fig figs) ->
               is_nan (x p) = false /\ is_nan (y p) = false /\ color p = y p)
    /\ (items selected_cuisines = [] \/ view <> [] ->
        exists figs,
          result (update_graphs selected_states selected_cities selected_cuisines
                                price_range) s = inr figs).
Proof.
  intros Hrun.
  destruct (update_graphs_outcome parse fs s selected_states selected_cities
              selected_cuisines price_range Hrun)
    as [view [Hview [_ [Hvalid [Hcases Hreturns]]]]].
  exists view. split; [assumption|]. split.
  - intros figs Hfigs.
    destruct Hcases as [Hok | [Hraise _]]; [|congruence].
    rewrite Hok in Hfigs. injection Hfigs as <-.
    simpl. unfold scatter_points. rewrite !map_map. simpl.
    split; [reflexivity|]. split; [reflexivity|]. split; [reflexivity|].
    intros p Hp. apply in_map_iff in Hp. destruct Hp as [r [<- Hr]]. simpl.
    destruct (Hvalid r Hr) as [Hprice [Hrating _]]. now repeat split.
  - intros Hcond. eexists. now apply Hreturns.
Qed.

Lemma scatter_points_are_numbers_witness :
  exists view,
    result (filtered_view (Some ["Maharashtra"]) None None (0, 1000)%float)
           Sample.shop = inr view
    /\ (forall figs,
          result (update_graphs (Some ["Maharashtra"]) None None (0, 1000)%float)
                 Sample.shop = inr figs ->
          map x (scatter_fig figs) = map Price view
          /\ map y (scatter_fig figs) = map Avg_ratings view
          /\ map hover_name (scatter_fig figs) = map Restaurant view
          /\ forall p, In p (scatter_fig figs) ->
               is_nan (x p) = false /\ is_nan (y p) = false /\ color p = y p)
    /\ (items (@None (list string)) = [] \/ view <> [] ->
        exists figs,
          result (update_graphs (Some ["Maharashtra"]) None None (0, 1000)%float)
                 Sample.shop = inr figs).
Proof.
  apply (scatter_points_are_numbers Sample.parse_decimal Sample.disk Sample.shop).
  reflexivity.
Defined.

(** X22. When [update_graphs] raises on a served store: exactly when a
    cuisine is selected and no row of [df] passes the price, state and city
    tests.  The mask of line 145 is then empty and not boolean, line 146
    takes the columns away, and line 150 raises [KeyError: 'City'].  In
    every other case the call returns its three figures. *)
Theorem update_graphs_raises_exactly_when
        (parse : string -> option float) (fs : filesystem) (s : store)
        (selected_states selected_cities selected_cuisines : option (list string))
        (price_range : float * float) :
  module_body parse fs = Serving s ->
  (result (update_graphs selected_states selected_cities selected_cuisines
                         price_range) s = inl (KeyError "City")
   <-> items selected_cuisines <> []
       /\ forall r, In r (df s) ->
            ~ (in_price_range price_range (Price r)
               /\ (items selected_states = []
                   \/ exists st, State r = Some st /\ In st (items selected_states))
               /\ (items selected_cities = []
                   \/ exists c, City r = Some c /\ In c (items selected_cities))))
  /\ (result (update_graphs selected_states selected_cities selected_cuisines
                            price_range) s = inl (KeyError "City")
      \/ exists figs,
           result (update_graphs selected_states selected_cities selected_cuisines
                                 price_range) s = inr figs).
Proof.
  intros Hrun.
  assert (Hfood : forall r, In r (df s) -> exists f, Food_type r = Some f).
  { intros r Hr.
    destruct (served_rows_valid parse fs s Hrun r Hr) as [_ [_ [_ [_ [f [Hf _]]]]]].
    now exists f. }
  destruct (filtered_frame_rows selected_states selected_cities selected_cuisines
              price_range s Hfood) as [view [flag [_ [Hframe [_ Hflag]]]]].
  unfold result, update_graphs, bind. rewrite Hframe.
  cbn [fst rows has_columns].
  destruct flag; cbn [fst ret raise].
  - split.
    + split; [discriminate|]. intros Hcond. apply Hflag in Hcond. discriminate.
    + right. now eexists.
  - split.
    + split; [intros _; now apply Hflag | reflexivity].
    + now left.
Qed.

Lemma update_graphs_raises_exactly_when_witness :
  (result (update_graphs None None (Some ["Pizza"]) (5000, 0)%float) Sample.shop
   = inl (KeyError "City")
   <-> items (Some ["Pizza"]) <> []
       /\ forall r, In r (df Sample.shop) ->
            ~ (in_price_range (5000, 0)%float (Price r)
               /\ (items (@None (list string)) = []
                   \/ exists st, State r = Some st
                                 /\ In st (items (@None (list string))))
               /\ (items (@None (list string)) = []
                   \/ exists c, City r = Some c
                                /\ In c (items (@None (list string))))))
  /\ (result (update_graphs None None (Some ["Pizza"]) (5000, 0)%float) Sample.shop
      = inl (KeyError "City")
      \/ exists figs,
           result (update_graphs None None (Some ["Pizza"]) (5000, 0)%float)
                  Sample.shop = inr figs).
Proof.
  apply (update_graphs_raises_exactly_when Sample.parse_decimal Sample.disk
           Sample.shop).
  reflexivity.
Defined.

(** X21. Splitting a food type on [", "] loses nothing: the pieces are never
    an empty list, joining them with [", "] gives the food type back, and
    every cuisine the food type lists occurs in it as a substring. *)
Theorem food_type_pieces (food_type : string) :
  split ", " food_type <> []
  /\ join ", " (split ", " food_type) = food_type
  /\ forall token, lists food_type token -> Substring token food_type.
Proof.
  split; [apply split_from_nonempty|].
  split; [apply split_join; discriminate|].
  intros token. apply lists_Substring.
Qed.

End PointsAndPieces.
